(** * LSTM_Net (src/ml_lib/lstm_net.py): a shallow embedding

    The class [LSTM_Net] wires a recurrent layer, a list of dense layers and
    an output layer out of PyTorch building blocks.  The embedding keeps the
    Python object model the class relies on (attribute assignment on an
    [nn.Module] registers sub-modules, any other value lands in the instance
    dictionary, a failed lookup raises [AttributeError]) and the shape
    discipline of the tensor library.  The floating-point kernels of the
    library are parameters of the development. *)

From Stdlib Require Import ZArith QArith String List Lia Bool.
From stdpp Require Import base list.
Import ListNotations.

Local Open Scope string_scope.
Local Open Scope list_scope.
Local Open Scope Z_scope.

(** ** Python outcomes *)

Inductive RuntimeErr :=
| NegativeDim                        (* a negative size given to an allocation *)
| InputRank                          (* check_input: the batch is not 3-D *)
| HiddenRank                         (* h_0 / c_0 not of the rank that goes with the input *)
| InputSize (expected got : Z)       (* input.size(-1) differs from input_size *)
| HiddenSize                         (* h_0 / c_0 of the wrong shape *)
| SeqLen                             (* empty sequence given to the recurrent layer *)
| DTypeMismatch
| SizeMismatch (expected got : Z)    (* matrix product: feature width differs *)
| CatSizes.                          (* torch.cat: ranks or batch sizes differ *)

Inductive PyErr :=
| AttributeError (name : string)
| TypeError
| ValueError
| IndexError
| StopIteration
| SystemError                        (* a reference to storage that was never allocated *)
| RuntimeError (r : RuntimeErr).

Inductive outcome (A : Type) :=
| Return (a : A)
| Raise (e : PyErr).
Arguments Return {A} a.
Arguments Raise {A} e.

Inductive DType := Float32 | Float64 | Int64.

Definition DType_eqb (a b : DType) : bool :=
  match a, b with
  | Float32, Float32 | Float64, Float64 | Int64, Int64 => true
  | _, _ => false
  end.

(** Number of elements of a shape. *)
Definition numel (sh : list Z) : Z := fold_right Z.mul 1 sh.

Definition nonneg_shape (sh : list Z) : bool := forallb (fun d => 0 <=? d) sh.

Fixpoint shape_eqb (a b : list Z) : bool :=
  match a, b with
  | [], [] => true
  | x :: a', y :: b' => (x =? y) && shape_eqb a' b'
  | _, _ => false
  end.

Definition is_floating (d : DType) : bool :=
  match d with Int64 => false | _ => true end.

(** result type of an operation on two precisions *)
Definition promote (a b : DType) : DType :=
  match a, b with
  | Float64, _ | _, Float64 => Float64
  | Float32, _ | _, Float32 => Float32
  | Int64, Int64 => Int64
  end.

(** Ordered dictionaries ([OrderedDict], and [__dict__], which keeps
    insertion order as well): assignment to an existing key keeps its place. *)
Fixpoint assoc_get {V : Type} (k : string) (d : list (string * V)) : option V :=
  match d with
  | [] => None
  | (k', v) :: rest => if String.eqb k k' then Some v else assoc_get k rest
  end.

Fixpoint assoc_set {V : Type} (k : string) (v : V) (d : list (string * V))
  : list (string * V) :=
  match d with
  | [] => [(k, v)]
  | (k', v') :: rest =>
      if String.eqb k k' then (k, v) :: rest else (k', v') :: assoc_set k v rest
  end.

Fixpoint assoc_del {V : Type} (k : string) (d : list (string * V))
  : list (string * V) :=
  match d with
  | [] => []
  | (k', v') :: rest =>
      if String.eqb k k' then assoc_del k rest else (k', v') :: assoc_del k rest
  end.

(** Row-major data movement used by [forward]. *)

(** [t[:, -1, :]] on [b] blocks of [s] rows of width [h]. *)
Fixpoint select_last_rows {A : Type} (b : nat) (s h : nat) (d : list A) : list A :=
  match b with
  | O => []
  | S b' => firstn h (skipn ((s - 1) * h) d) ++ select_last_rows b' s h (skipn (s * h) d)
  end.

(** [torch.cat((x, y), dim=1)] on [b] rows of widths [w1] and [w2]. *)
Fixpoint cat_rows {A : Type} (b : nat) (w1 w2 : nat) (d1 d2 : list A) : list A :=
  match b with
  | O => []
  | S b' => firstn w1 d1 ++ firstn w2 d2 ++ cat_rows b' w1 w2 (skipn w1 d1) (skipn w2 d2)
  end.

(** A tensor: its shape, its precision and its elements in row-major order. *)
Record tensor (elt : Type) := mkTensor {
  shape : list Z;
  dtype : DType;
  data : list elt
}.
Arguments mkTensor {elt} shape dtype data.
Arguments shape {elt} t.
Arguments dtype {elt} t.
Arguments data {elt} t.

(** ** A trivial numeric side

    Elements without content: enough to run the class on concrete shapes. *)
Module Blank.
Definition fill (n : Z) : list unit := repeat tt (Z.to_nat n).
Definition uninit (_ : nat) : unit := tt.
Definition rand_uniform (g : unit) (_ : Z) (sh : list Z) : list unit * unit :=
  (fill (numel sh), g).
Definition cast (_ _ : DType) (d : list unit) : list unit := d.
Definition relu_elt (e : unit) : unit := e.
Definition linear_kernel (w b x : tensor unit) : list unit :=
  fill (numel (removelast (shape x)) * hd 0 (shape w)).
Definition lstm_out_len (ws : list (tensor unit)) (x : tensor unit) : Z :=
  numel (removelast (shape x)) * (hd 0 (shape (hd x ws)) / 4).
Definition lstm_kernel (ws : list (tensor unit)) (x h0 c0 : tensor unit)
  : list unit * (list unit * list unit) :=
  (fill (lstm_out_len ws x), (data h0, data c0)).
Definition lstm_kernel_drop (g : unit) (_ : Q) (ws : list (tensor unit))
  (x h0 c0 : tensor unit) : (list unit * (list unit * list unit)) * unit :=
  (lstm_kernel ws x h0 c0, g).
Definition dropout_kernel (g : unit) (_ : Q) (d : list unit) : list unit * unit :=
  (d, g).
End Blank.

Section Torch.

(** ** The tensor library's numeric side, kept abstract *)

Variable elt : Type.                   (* a tensor element *)
Variable zero : elt.
Variable rng : Type.                   (* state of the library's random generator *)

Local Abbreviation Tensor := (tensor elt).

(** what the cell at a given offset of freshly allocated, uninitialised
    storage holds *)
Variable uninit : nat -> elt.
(** default (random) initialisation of a parameter of the given fan and shape *)
Variable rand_uniform : rng -> Z -> list Z -> list elt * rng.
(** element conversion between precisions *)
Variable cast : DType -> DType -> list elt -> list elt.
Variable relu_elt : elt -> elt.
(** affine map: weight, bias, input *)
Variable linear_kernel : Tensor -> Tensor -> Tensor -> list elt.
(** recurrence without inter-layer dropout: parameters, input, h_0, c_0
    give the per-step outputs, h_n and c_n *)
Variable lstm_kernel :
  list Tensor -> Tensor -> Tensor -> Tensor -> list elt * (list elt * list elt).
(** recurrence with inter-layer dropout of the given probability *)
Variable lstm_kernel_drop :
  rng -> Q -> list Tensor -> Tensor -> Tensor -> Tensor ->
  (list elt * (list elt * list elt)) * rng.
Variable dropout_kernel : rng -> Q -> list elt -> list elt * rng.

(** ** Modules and instances *)

Record LSTM := mkLSTM {
  input_size : Z;
  hidden_size : Z;
  num_layers : Z;
  lstm_dropout : Q;
  lstm_training : bool;
  lstm_weights : list Tensor   (* weight_ih, weight_hh, bias_ih, bias_hh per layer *)
}.

Record Linear := mkLinear {
  in_features : Z;
  out_features : Z;
  weight : Tensor;
  bias : Tensor
}.

Inductive Module :=
| Dropout (p : Q) (training : bool)
| ReLU
| Activation (f : Tensor -> Tensor)
| LSTMLayer (l : LSTM)
| LinearLayer (l : Linear).

Inductive PyVal :=
| VNone
| VInt (z : Z)
| VModule (m : Module)
| VList (l : list Module)
| VTuple (a b : Tensor).

(** An [nn.Module] instance: the mode flag, the registry of sub-modules
    ([_modules]) and the remaining instance attributes ([__dict__]). *)
Record Obj := mkObj {
  training : bool;
  modules : list (string * option Module);
  dict : list (string * PyVal)
}.

(** The interpreter state a method runs in: the instance, the tensors
    allocated in place (indexed by address) and the random generator. *)
Record State := mkState { self : Obj; heap : list Tensor; gen : rng }.

Definition M (A : Type) : Type := State -> outcome A * State.

Definition ret {A} (a : A) : M A := fun s => (Return a, s).
Definition raise {A} (e : PyErr) : M A := fun s => (Raise e, s).
Definition bind {A B} (m : M A) (f : A -> M B) : M B :=
  fun s => match m s with
           | (Return a, s') => f a s'
           | (Raise e, s') => (Raise e, s')
           end.

Notation "x <- c1 ;; c2" := (bind c1 (fun x => c2))
  (at level 100, c1 at next level, right associativity).
Notation "c1 ;;; c2" := (bind c1 (fun _ => c2))
  (at level 100, right associativity).

Definition get_self : M Obj := fun s => (Return (self s), s).
Definition put_self (o : Obj) : M unit :=
  fun s => (Return tt, mkState o (heap s) (gen s)).
Definition with_gen {A} (f : rng -> A * rng) : M A :=
  fun s => (Return (fst (f (gen s))), mkState (self s) (heap s) (snd (f (gen s)))).

(** Storage that is written in place lives in the heap. *)
Definition alloc (t : Tensor) : M nat :=
  fun s => (Return (length (heap s)), mkState (self s) (heap s ++ [t]) (gen s)).
Definition load (l : nat) : M Tensor :=
  fun s => match heap s !! l with
           | Some t => (Return t, s)
           | None => (Raise SystemError, s)
           end.
Definition store (l : nat) (t : Tensor) : M unit :=
  fun s => (Return tt, mkState (self s) (<[l := t]> (heap s)) (gen s)).

(** ** nn.Module: attribute protocol *)

(** [self.name]: the instance dictionary first, then [Module.__getattr__],
    which searches the registry and raises [AttributeError] otherwise.
    (None of the names the class looks up is a method or class attribute.) *)
Definition lookup_attr (name : string) (o : Obj) : outcome PyVal :=
  match assoc_get name (dict o) with
  | Some v => Return v
  | None =>
      match assoc_get name (modules o) with
      | Some (Some m) => Return (VModule m)
      | Some None => Return VNone
      | None => Raise (AttributeError name)
      end
  end.

Definition getattr (name : string) : M PyVal :=
  fun s => (lookup_attr name (self s), s).

(** [self.name = v] ([Module.__setattr__]): a module value is registered in
    [_modules] (and removed from [__dict__]); a name already registered only
    accepts a module or [None]; anything else is an ordinary attribute. *)
Definition setattr (name : string) (v : PyVal) : M unit :=
  fun s =>
    let o := self s in
    match v with
    | VModule m =>
        (Return tt,
         mkState (mkObj (training o) (assoc_set name (Some m) (modules o))
                        (assoc_del name (dict o)))
                 (heap s) (gen s))
    | _ =>
        match assoc_get name (modules o) with
        | Some _ =>
            match v with
            | VNone =>
                (Return tt,
                 mkState (mkObj (training o) (assoc_set name None (modules o)) (dict o))
                         (heap s) (gen s))
            | _ => (Raise TypeError, s)
            end
        | None =>
            (Return tt,
             mkState (mkObj (training o) (modules o) (assoc_set name v (dict o)))
                     (heap s) (gen s))
        end
    end.

(** [self.name.append(m)]: the list held by the attribute is extended in
    place; no [__setattr__] is involved. *)
Definition list_append (name : string) (m : Module) : M unit :=
  v <- getattr name ;;
  match v with
  | VList l =>
      fun s =>
        let o := self s in
        (Return tt,
         mkState (mkObj (training o) (modules o)
                        (assoc_set name (VList (l ++ [m])) (dict o)))
                 (heap s) (gen s))
  | _ => raise (AttributeError "append")
  end.

Definition truthy (v : PyVal) : bool :=
  match v with
  | VNone => false
  | VInt z => negb (z =? 0)
  | VModule _ => true
  | VList l => match l with [] => false | _ => true end
  | VTuple _ _ => true
  end.

(** ** nn.Module: parameters, precision, mode *)

Definition Module_parameters (m : Module) : list Tensor :=
  match m with
  | LSTMLayer l => lstm_weights l
  | LinearLayer l => [weight l; bias l]
  | _ => []
  end.

(** [self.parameters()]: the instance has no parameter of its own; the
    registered sub-modules contribute theirs in registration order. *)
Definition parameters (o : Obj) : list Tensor :=
  flat_map (fun e => match snd e with
                     | Some m => Module_parameters m
                     | None => []
                     end) (modules o).

(** [t.float()] *)
Definition Tensor_float (t : Tensor) : Tensor :=
  match dtype t with
  | Float32 => t
  | d => mkTensor (shape t) Float32 (cast d Float32 (data t))
  end.

Definition param_float (t : Tensor) : Tensor :=
  if is_floating (dtype t) then Tensor_float t else t.

Definition Module_float (m : Module) : Module :=
  match m with
  | LSTMLayer l =>
      LSTMLayer (mkLSTM (input_size l) (hidden_size l) (num_layers l) (lstm_dropout l)
                        (lstm_training l) (map param_float (lstm_weights l)))
  | LinearLayer l =>
      LinearLayer (mkLinear (in_features l) (out_features l)
                            (param_float (weight l)) (param_float (bias l)))
  | _ => m
  end.

(** the method [self.parameters()] *)
Definition self_parameters : M (list Tensor) :=
  fun s => (Return (parameters (self s)), s).

(** [self.float()]: converts the parameters reachable through the registry. *)
Definition float_ : M unit :=
  o <- get_self ;;
  put_self (mkObj (training o)
                  (map (fun e => (fst e, option_map Module_float (snd e))) (modules o))
                  (dict o)).

Definition LSTM_train (mode : bool) (l : LSTM) : LSTM :=
  mkLSTM (input_size l) (hidden_size l) (num_layers l) (lstm_dropout l)
         mode (lstm_weights l).

Definition Module_train (mode : bool) (m : Module) : Module :=
  match m with
  | Dropout p _ => Dropout p mode
  | LSTMLayer l => LSTMLayer (LSTM_train mode l)
  | _ => m
  end.

(** [self.train(mode)] / [self.eval()]: the flag of the instance and of every
    registered sub-module. *)
Definition train (mode : bool) : M unit :=
  o <- get_self ;;
  put_self (mkObj mode
                  (map (fun e => (fst e, option_map (Module_train mode) (snd e))) (modules o))
                  (dict o)).

(** ** Layers of the library

    The argument and shape checks below are the ones PyTorch 2 documents for
    [nn.Dropout], [nn.Linear], [nn.LSTM], [Tensor.new], indexing and
    [torch.cat].  The numeric content is left to the kernels above. *)

(** A new parameter: allocation rejects a negative size; the default
    initialisation draws from the generator; the default precision is
    single. *)
Definition new_parameter (fan : Z) (sh : list Z) : M Tensor :=
  if nonneg_shape sh
  then with_gen (fun g => (mkTensor sh Float32 (fst (rand_uniform g fan sh)),
                           snd (rand_uniform g fan sh)))
  else raise (RuntimeError NegativeDim).

Definition prob_ok (p : Q) : bool := Qle_bool 0 p && Qle_bool p 1.

(** [nn.Dropout(p)] *)
Definition nn_Dropout (p : Q) : M Module :=
  if prob_ok p then ret (Dropout p true) else raise ValueError.

(** [nn.Linear(in_features, out_features)] *)
Definition nn_Linear (i o : Z) : M Linear :=
  w <- new_parameter i [o; i] ;;
  b <- new_parameter i [o] ;;
  ret (mkLinear i o w b).

Fixpoint lstm_new_weights (layers : nat) (layer_input hidden : Z) : M (list Tensor) :=
  match layers with
  | O => ret []
  | S k =>
      w_ih <- new_parameter hidden [4 * hidden; layer_input] ;;
      w_hh <- new_parameter hidden [4 * hidden; hidden] ;;
      b_ih <- new_parameter hidden [4 * hidden] ;;
      b_hh <- new_parameter hidden [4 * hidden] ;;
      rest <- lstm_new_weights k hidden hidden ;;
      ret (w_ih :: w_hh :: b_ih :: b_hh :: rest)
  end.

(** [nn.LSTM(input_size, hidden_size, num_layers, dropout=p, batch_first=True)]:
    a dropout outside [0, 1], and a size or a number of layers that is not
    positive, are refused with [ValueError] before any weight is allocated *)
Definition nn_LSTM (input hidden layers : Z) (p : Q) : M LSTM :=
  if negb (prob_ok p) then raise ValueError
  else if input <=? 0 then raise ValueError
  else if hidden <=? 0 then raise ValueError
  else if layers <=? 0 then raise ValueError
  else
    ws <- lstm_new_weights (Z.to_nat layers) input hidden ;;
    ret (mkLSTM input hidden layers p true ws).

(** [t.size(0)] *)
Definition Tensor_size0 (t : Tensor) : M Z :=
  match shape t with
  | d :: _ => ret d
  | [] => raise IndexError
  end.

(** [like.new(sizes)]: fresh uninitialised storage in the precision of [like] *)
Definition Tensor_new (like : Tensor) (sizes : list Z) : M nat :=
  if nonneg_shape sizes
  then alloc (mkTensor sizes (dtype like) (map uninit (seq 0 (Z.to_nat (numel sizes)))))
  else raise (RuntimeError NegativeDim).

(** [t.zero_()]: overwrites the storage and returns the same tensor *)
Definition zero_ (l : nat) : M nat :=
  t <- load l ;;
  store l (mkTensor (shape t) (dtype t) (map (fun _ => zero) (data t))) ;;;
  ret l.

(** [t.unsqueeze(k)] and [t.squeeze(k)]: the same storage seen with an axis
    of size 1 inserted at, or removed from, position [k] *)
Definition unsqueeze (k : nat) (t : Tensor) : Tensor :=
  mkTensor (take k (shape t) ++ 1 :: drop k (shape t)) (dtype t) (data t).

Definition squeeze (k : nat) (t : Tensor) : Tensor :=
  match drop k (shape t) with
  | 1 :: rest => mkTensor (take k (shape t) ++ rest) (dtype t) (data t)
  | _ => t
  end.

(** the recurrent layer on a batch: [check_forward_args], then the kernel *)
Definition LSTM_batched (l : LSTM) (x h0 c0 : Tensor)
  : M (Tensor * (Tensor * Tensor)) :=
  match shape x with
  | [b; s; i] =>
      let hshape := [num_layers l; b; hidden_size l] in
      if negb (i =? input_size l)
      then raise (RuntimeError (InputSize (input_size l) i))
      else if negb (shape_eqb (shape h0) hshape && shape_eqb (shape c0) hshape)
      then raise (RuntimeError HiddenSize)
      else if negb (forallb (DType_eqb (dtype x))
                            (dtype h0 :: dtype c0 :: map dtype (lstm_weights l)))
      then raise (RuntimeError DTypeMismatch)
      else if s <=? 0 then raise (RuntimeError SeqLen)
      else
        r <- (if lstm_training l && negb (Qle_bool (lstm_dropout l) 0)
                 && (1 <? num_layers l)
              then with_gen (fun g => lstm_kernel_drop g (lstm_dropout l)
                                        (lstm_weights l) x h0 c0)
              else ret (lstm_kernel (lstm_weights l) x h0 c0)) ;;
        ret (mkTensor [b; s; hidden_size l] (dtype x) (fst r),
             (mkTensor hshape (dtype x) (fst (snd r)),
              mkTensor hshape (dtype x) (snd (snd r))))
  | _ => raise (RuntimeError InputRank)
  end.

(** [lstm(x, (h_0, c_0))] with [batch_first=True].  The input is a batch
    (3-D) or a single sequence (2-D), any other rank is a [ValueError]; the
    two states must have the rank that goes with it, 3-D for a batch and 2-D
    for a single sequence, which is then run as a batch of one. *)
Definition LSTM_forward (l : LSTM) (x : Tensor) (hx : nat * nat)
  : M (Tensor * (Tensor * Tensor)) :=
  h0 <- load (fst hx) ;;
  c0 <- load (snd hx) ;;
  match length (shape x) with
  | 3%nat =>
      if negb ((length (shape h0) =? 3)%nat && (length (shape c0) =? 3)%nat)
      then raise (RuntimeError HiddenRank)
      else LSTM_batched l x h0 c0
  | 2%nat =>
      if negb ((length (shape h0) =? 2)%nat && (length (shape c0) =? 2)%nat)
      then raise (RuntimeError HiddenRank)
      else
        r <- LSTM_batched l (unsqueeze 0 x) (unsqueeze 1 h0) (unsqueeze 1 c0) ;;
        ret (squeeze 0 (fst r), (squeeze 1 (fst (snd r)), squeeze 1 (snd (snd r))))
  | _ => raise ValueError
  end.

(** [linear(x)]: the last axis must have the layer's input width *)
Definition Linear_forward (l : Linear) (x : Tensor) : M Tensor :=
  match rev (shape x) with
  | w :: pre =>
      if negb (w =? in_features l)
      then raise (RuntimeError (SizeMismatch (in_features l) w))
      else if negb (DType_eqb (dtype x) (dtype (weight l))
                    && DType_eqb (dtype x) (dtype (bias l)))
      then raise (RuntimeError DTypeMismatch)
      else ret (mkTensor (rev (out_features l :: pre)) (dtype x)
                         (linear_kernel (weight l) (bias l) x))
  | [] => raise (RuntimeError (SizeMismatch (in_features l) 1))
  end.

Definition ReLU_forward (x : Tensor) : Tensor :=
  mkTensor (shape x) (dtype x) (map relu_elt (data x)).

(** [dropout(x)]: the identity in evaluation mode *)
Definition Dropout_forward (p : Q) (mode : bool) (x : Tensor) : M Tensor :=
  if mode
  then with_gen (fun g => (mkTensor (shape x) (dtype x)
                                     (fst (dropout_kernel g p (data x))),
                           snd (dropout_kernel g p (data x))))
  else ret x.

(** [m(x)] for a module called on one tensor.  The recurrent layer returns a
    tuple there, which no caller in this class can use as a tensor. *)
Definition call_module (m : Module) (x : Tensor) : M Tensor :=
  match m with
  | Dropout p mode => Dropout_forward p mode x
  | ReLU => ret (ReLU_forward x)
  | Activation f => ret (f x)
  | LinearLayer l => Linear_forward l x
  | LSTMLayer _ => raise TypeError
  end.

(** [v(x)] for an attribute value *)
Definition call (v : PyVal) (x : Tensor) : M Tensor :=
  match v with
  | VModule m => call_module m x
  | _ => raise TypeError
  end.

(** [v(x, hx)] for an attribute value *)
Definition call_lstm (v : PyVal) (x : Tensor) (hx : nat * nat)
  : M (Tensor * (Tensor * Tensor)) :=
  match v with
  | VModule (LSTMLayer l) => LSTM_forward l x hx
  | _ => raise TypeError
  end.

(** [for l in v] *)
Definition iter (v : PyVal) : M (list Module) :=
  match v with
  | VList l => ret l
  | _ => raise TypeError
  end.

(** an attribute used as a size *)
Definition as_int (v : PyVal) : M Z :=
  match v with
  | VInt z => ret z
  | _ => raise TypeError
  end.

(** [next(it)] *)
Definition next {A} (l : list A) : M A :=
  match l with
  | a :: _ => ret a
  | [] => raise StopIteration
  end.

(** [t[:, -1, :]] on the 3-D output of the recurrent layer *)
Definition select_last (t : Tensor) : M Tensor :=
  match shape t with
  | [b; s; h] =>
      if 1 <=? s
      then ret (mkTensor [b; h] (dtype t)
                  (select_last_rows (Z.to_nat b) (Z.to_nat s) (Z.to_nat h) (data t)))
      else raise IndexError
  | _ => raise IndexError
  end.

Definition as_dtype (d : DType) (t : Tensor) : list elt :=
  if DType_eqb (dtype t) d then data t else cast (dtype t) d (data t).

(** [torch.cat((x, y), dim=1)] of two matrices; a tensor of shape [(0,)] is
    skipped, as the library does *)
Definition torch_cat1 (x y : Tensor) : M Tensor :=
  match shape x, shape y with
  | _, [0] => ret x
  | [0], _ => ret y
  | [b1; w1], [b2; w2] =>
      if b1 =? b2
      then let d := promote (dtype x) (dtype y) in
           ret (mkTensor [b1; w1 + w2] d
                  (cat_rows (Z.to_nat b1) (Z.to_nat w1) (Z.to_nat w2)
                            (as_dtype d x) (as_dtype d y)))
      else raise (RuntimeError CatSizes)
  | _, _ => raise (RuntimeError CatSizes)
  end.

(** ** The class LSTM_Net *)

Record Config := mkConfig {
  fc : list Z;
  input_dim : Z;
  output_dim : Z;
  hidden_dim : Z;
  n_layers : Z;
  non_seq_dim : option Z;
  dropout : Q;
  out_actv : option (Tensor -> Tensor)
}.

(** Modelled from the spec: the base class [ml_lib.model.Model] is not among
    the sources.  The spec gives it save/load, device placement and mode
    toggling on top of the library's module class and nothing else, so its
    constructor leaves a fresh module: training mode, an empty registry and
    no attribute. *)
Definition Model__init__ : M unit := put_self (mkObj true [] []).

(** lines 60-62: [for i,neurons in enumerate(fc)] *)
Fixpoint init_fc (fc : list Z) (prev_out : Z) : M Z :=
  match fc with
  | [] => ret prev_out
  | neurons :: rest =>
      l <- nn_Linear prev_out neurons ;;
      list_append "fc" (LinearLayer l) ;;;
      init_fc rest neurons
  end.

(** [non_seq_dim if non_seq_dim else 0] *)
Definition non_seq_width (non_seq_dim : option Z) : Z :=
  match non_seq_dim with
  | Some d => if d =? 0 then 0 else d
  | None => 0
  end.

(** lines 45-66 *)
Definition __init__ (c : Config) : M unit :=
  Model__init__ ;;;
  setattr "n_layers" (VInt (n_layers c)) ;;;
  setattr "hidden_dim" (VInt (hidden_dim c)) ;;;
  d <- nn_Dropout (dropout c) ;;
  setattr "dropout" (VModule d) ;;;
  let dropout := if n_layers c =? 1 then 0%Q else dropout c in
  setattr "actv" (VModule ReLU) ;;;
  setattr "out_actv" (match out_actv c with
                      | Some f => VModule (Activation f)
                      | None => VNone
                      end) ;;;
  lstm <- nn_LSTM (input_dim c) (hidden_dim c) (n_layers c) dropout ;;
  setattr "lstm" (VModule (LSTMLayer lstm)) ;;;
  let prev_out := hidden_dim c + non_seq_width (non_seq_dim c) in
  setattr "fc" (VList []) ;;;
  prev_out <- init_fc (fc c) prev_out ;;
  out <- nn_Linear prev_out (output_dim c) ;;
  setattr "out" (VModule (LinearLayer out)) ;;;
  float_.

(** lines 111-117 *)
Definition init_hidden (batch_size : Z) : M (nat * nat) :=
  ps <- self_parameters ;;
  weight <- next ps ;;
  n <- (v <- getattr "n_layers" ;; as_int v) ;;
  h <- (v <- getattr "hidden_dim" ;; as_int v) ;;
  t1 <- Tensor_new weight [n; batch_size; h] ;;
  t1 <- zero_ t1 ;;
  n <- (v <- getattr "n_layers" ;; as_int v) ;;
  h <- (v <- getattr "hidden_dim" ;; as_int v) ;;
  t2 <- Tensor_new weight [n; batch_size; h] ;;
  t2 <- zero_ t2 ;;
  ret (t1, t2).

(** lines 92-95: [for l in self.fc] *)
Fixpoint dense_loop (layers : list Module) (dense : Tensor) : M Tensor :=
  match layers with
  | [] => ret dense
  | l :: rest =>
      dense <- call_module l dense ;;
      actv <- getattr "actv" ;;
      dense <- call actv dense ;;
      dropout <- getattr "dropout" ;;
      dense <- call dropout dense ;;
      dense_loop rest dense
  end.

(** lines 80-91: the recurrent encoder and the fusion of the auxiliary input *)
Definition encode (x : Tensor) (non_seq : option Tensor) : M Tensor :=
  let x := Tensor_float x in
  batch_size <- Tensor_size0 x ;;
  lstm <- getattr "lstm" ;;
  hidden <- init_hidden batch_size ;;
  r <- call_lstm lstm x hidden ;;
  let lstm_out := fst r in
  setattr "hidden" (VTuple (fst (snd r)) (snd (snd r))) ;;;
  lstm_out <- select_last lstm_out ;;
  match non_seq with
  | None => ret lstm_out
  | Some non_seq =>
      let non_seq := Tensor_float non_seq in
      torch_cat1 lstm_out non_seq
  end.

(** lines 92-98: the dense head, the output layer and the terminal step *)
Definition head (dense : Tensor) : M Tensor :=
  fc <- getattr "fc" ;;
  layers <- iter fc ;;
  dense <- dense_loop layers dense ;;
  out_layer <- getattr "out" ;;
  out <- call out_layer dense ;;
  out_actv <- getattr "out_actv" ;;
  if truthy out_actv
  then (f <- getattr "out_atcv" ;; call f out)
  else ret out.

(** lines 68-98 *)
Definition forward (x : Tensor) (non_seq : option Tensor) : M Tensor :=
  dense <- encode x non_seq ;;
  head dense.

(** ** What construction promises, in the spec's words *)

(** a dense layer from width [i] to width [o], in single precision *)
Definition wired (i o : Z) (l : Linear) : Prop :=
  in_features l = i /\ out_features l = o /\
  shape (weight l) = [o; i] /\ shape (bias l) = [o] /\
  dtype (weight l) = Float32 /\ dtype (bias l) = Float32.

(** the dense stack: the first layer reads width [w], every next one the
    width its predecessor writes, the widths in the order of [fc] *)
Fixpoint chained (w : Z) (fc : list Z) (ls : list Linear) : Prop :=
  match fc, ls with
  | [], [] => True
  | n :: fc', l :: ls' => wired w n l /\ chained n fc' ls'
  | _, _ => False
  end.

(** shapes of the recurrent layer's parameters, layer by layer *)
Fixpoint lstm_shapes (layers : nat) (layer_input hidden : Z) : list (list Z) :=
  match layers with
  | O => []
  | S k =>
      [4 * hidden; layer_input] :: [4 * hidden; hidden] :: [4 * hidden] :: [4 * hidden]
      :: lstm_shapes k hidden hidden
  end.

Definition single (t : Tensor) : Prop := dtype t = Float32.

(** a tensor of the given precision and shape filled with zeros *)
Definition zeros (d : DType) (sh : list Z) : Tensor :=
  mkTensor sh d (repeat zero (Z.to_nat (numel sh))).

(** the instance with its attribute [hidden] set *)
Definition with_hidden (v : PyVal) (o : Obj) : Obj :=
  mkObj (training o) (modules o) (assoc_set "hidden" v (dict o)).

(** What the methods find when they look the instance up. *)
Record instance (mode : bool) (c : Config) (lstm : LSTM) (ls : list Linear)
  (out : Linear) (o : Obj) : Prop := {
  has_lstm : lookup_attr "lstm" o = Return (VModule (LSTMLayer lstm));
  has_n_layers : lookup_attr "n_layers" o = Return (VInt (n_layers c));
  has_hidden_dim : lookup_attr "hidden_dim" o = Return (VInt (hidden_dim c));
  has_fc : lookup_attr "fc" o = Return (VList (map LinearLayer ls));
  has_actv : lookup_attr "actv" o = Return (VModule ReLU);
  has_dropout : lookup_attr "dropout" o = Return (VModule (Dropout (dropout c) mode));
  has_out : lookup_attr "out" o = Return (VModule (LinearLayer out));
  has_out_actv :
    lookup_attr "out_actv" o =
    Return (match out_actv c with
            | Some f => VModule (Activation f)
            | None => VNone
            end);
  no_out_atcv : lookup_attr "out_atcv" o = Raise (AttributeError "out_atcv");
  has_parameters : parameters o = lstm_weights lstm ++ [weight out; bias out];
  hidden_free : assoc_get "hidden" (modules o) = None
}.

(** the auxiliary batch that goes with a batch of [B] sequences: [d] columns
    when it is given, none otherwise *)
Definition aux_ok (B d : Z) (non_seq : option Tensor) : Prop :=
  match non_seq with
  | Some a => shape a = [B; d]
  | None => d = 0
  end.

(** The instance [__init__] leaves behind: two sub-modules, the terminal
    activation when one is given, the recurrent layer and the output layer
    in the registry; the two sizes, [out_actv] when it is [None], and the
    list of dense layers in the instance dictionary. *)
Definition built (c : Config) (lstm : LSTM) (ls : list Linear) (out : Linear) : Obj :=
  mkObj true
    ([("dropout", Some (Dropout (dropout c) true)); ("actv", Some ReLU)]
     ++ match out_actv c with
        | Some f => [("out_actv", Some (Activation f))]
        | None => []
        end
     ++ [("lstm", Some (LSTMLayer lstm)); ("out", Some (LinearLayer out))])
    ([("n_layers", VInt (n_layers c)); ("hidden_dim", VInt (hidden_dim c))]
     ++ match out_actv c with
        | Some _ => []
        | None => [("out_actv", VNone)]
        end
     ++ [("fc", VList (map LinearLayer ls))]).

(** the recurrent layer construction asks for *)
Definition lstm_for (c : Config) (l : LSTM) : Prop :=
  input_size l = input_dim c /\ hidden_size l = hidden_dim c /\
  num_layers l = n_layers c /\
  lstm_dropout l = (if n_layers c =? 1 then 0%Q else dropout c) /\
  lstm_training l = true /\
  map shape (lstm_weights l) = lstm_shapes (Z.to_nat (n_layers c)) (input_dim c) (hidden_dim c) /\
  Forall single (lstm_weights l).

(** a configuration whose widths are positive and whose dropout is a
    probability *)
Definition valid (c : Config) : Prop :=
  0 < input_dim c /\ 0 < output_dim c /\ 0 < hidden_dim c /\ 0 < n_layers c /\
  Forall (fun n => 0 < n) (fc c) /\
  match non_seq_dim c with Some d => 0 < d | None => True end /\
  (0 <= dropout c)%Q /\ (dropout c <= 1)%Q.


(** the state with the attribute [hidden] of the instance overwritten *)
Definition set_hidden (v : PyVal) (s : State) : State :=
  mkState (with_hidden v (self s)) (heap s) (gen s).

(** two instances that differ at most in the attribute [hidden] *)
Definition same_but_hidden (o o' : Obj) : Prop :=
  training o' = training o /\ modules o' = modules o /\
  forall name, name <> "hidden" -> assoc_get name (dict o') = assoc_get name (dict o).

(** a computation that leaves the instance alone *)
Definition keeps {A} (m : M A) : Prop := forall s, self (snd (m s)) = self s.

(** a computation that writes at most the attribute [hidden] *)
Definition frames {A} (m : M A) : Prop :=
  forall s, same_but_hidden (self s) (self (snd (m s))).

(** two states that differ at most in the attribute [hidden] *)
Definition sim (s s' : State) : Prop :=
  same_but_hidden (self s) (self s') /\ heap s' = heap s /\ gen s' = gen s.

(** a computation whose outcome does not depend on the attribute [hidden] *)
Definition blind {A} (m : M A) : Prop :=
  forall s s', sim s s' -> fst (m s') = fst (m s) /\ sim (snd (m s)) (snd (m s')).

(** ** Runs *)

Lemma bind_Return {A B} (m : M A) (f : A -> M B) s b s' :
  bind m f s = (Return b, s') ->
  exists a s1, m s = (Return a, s1) /\ f a s1 = (Return b, s').
Proof.
  unfold bind. destruct (m s) as [[a|e] s1]; intros H; [eauto | discriminate].
Qed.

Lemma bind_run {A B} (m : M A) (f : A -> M B) s a s1 :
  m s = (Return a, s1) -> bind m f s = f a s1.
Proof. unfold bind. intros ->. reflexivity. Qed.

Lemma bind_fail {A B} (m : M A) (f : A -> M B) s e s1 :
  m s = (Raise e, s1) -> bind m f s = (Raise e, s1).
Proof. unfold bind. intros ->. reflexivity. Qed.

Lemma assoc_get_set_eq {V} k (v : V) d : assoc_get k (assoc_set k v d) = Some v.
Proof.
  induction d as [|[k' v'] d IH]; simpl.
  - now rewrite String.eqb_refl.
  - destruct (String.eqb k k') eqn:E; simpl; rewrite ?String.eqb_refl, ?E; auto.
Qed.

Lemma assoc_get_set_ne {V} k k' (v : V) d :
  k <> k' -> assoc_get k' (assoc_set k v d) = assoc_get k' d.
Proof.
  intros Hne. induction d as [|[k0 v0] d IH]; simpl.
  - destruct (String.eqb k' k) eqn:E; [apply String.eqb_eq in E; congruence | reflexivity].
  - destruct (String.eqb k k0) eqn:E; simpl.
    + apply String.eqb_eq in E. subst k0.
      destruct (String.eqb k' k) eqn:E'; [apply String.eqb_eq in E'; congruence | reflexivity].
    + now rewrite IH.
Qed.

Lemma assoc_set_set {V} k (v1 v2 : V) d :
  assoc_set k v2 (assoc_set k v1 d) = assoc_set k v2 d.
Proof.
  induction d as [|[k' v'] d IH]; simpl.
  - now rewrite String.eqb_refl.
  - destruct (String.eqb k k') eqn:E; simpl; rewrite ?String.eqb_refl, ?E, ?IH; auto.
Qed.

Lemma assoc_set_id {V} k (v : V) d : assoc_get k d = Some v -> assoc_set k v d = d.
Proof.
  induction d as [|[k' v'] d IH]; simpl; [discriminate|].
  destruct (String.eqb k k') eqn:E.
  - apply String.eqb_eq in E. intros [= ->]. now subst.
  - intros H. now rewrite IH.
Qed.

(** *** Layer constructors *)

Lemma new_parameter_inv fan sh s t s1 :
  new_parameter fan sh s = (Return t, s1) ->
  shape t = sh /\ single t /\ self s1 = self s /\ heap s1 = heap s.
Proof.
  unfold new_parameter, with_gen, raise.
  destruct (nonneg_shape sh); intros [= <- <-]; unfold single; cbn; auto.
Qed.

Lemma new_parameter_ok fan sh s :
  nonneg_shape sh = true -> exists t s1, new_parameter fan sh s = (Return t, s1).
Proof. unfold new_parameter, with_gen. intros ->. eauto. Qed.

Lemma nn_Linear_inv i o s l s1 :
  nn_Linear i o s = (Return l, s1) ->
  wired i o l /\ self s1 = self s /\ heap s1 = heap s.
Proof.
  unfold nn_Linear. intros H.
  apply bind_Return in H as (w & s2 & Hw & H).
  apply bind_Return in H as (b & s3 & Hb & H).
  apply new_parameter_inv in Hw as (? & ? & ? & ?).
  apply new_parameter_inv in Hb as (? & ? & ? & ?).
  injection H as <- <-. unfold wired; cbn. repeat split; congruence.
Qed.

Lemma nn_Linear_ok i o s :
  0 <= i -> 0 <= o -> exists l s1, nn_Linear i o s = (Return l, s1).
Proof.
  intros Hi Ho. unfold nn_Linear.
  destruct (new_parameter_ok i [o; i] s) as (w & s2 & Hw).
  { cbn. rewrite !andb_true_r. apply andb_true_intro; split; lia. }
  destruct (new_parameter_ok i [o] s2) as (b & s3 & Hb).
  { cbn. rewrite andb_true_r. lia. }
  rewrite (bind_run _ _ _ _ _ Hw), (bind_run _ _ _ _ _ Hb). eauto.
Qed.

Lemma lstm_new_weights_inv k : forall li h s ws s1,
  lstm_new_weights k li h s = (Return ws, s1) ->
  map shape ws = lstm_shapes k li h /\ Forall single ws /\
  self s1 = self s /\ heap s1 = heap s.
Proof.
  induction k as [|k IH]; intros li h s ws s1 H; cbn in H.
  - injection H as <- <-. cbn. auto.
  - apply bind_Return in H as (w1 & s2 & H1 & H).
    apply bind_Return in H as (w2 & s3 & H2 & H).
    apply bind_Return in H as (b1 & s4 & H3 & H).
    apply bind_Return in H as (b2 & s5 & H4 & H).
    apply bind_Return in H as (rest & s6 & Hr & H).
    injection H as <- <-.
    apply new_parameter_inv in H1 as (? & ? & ? & ?).
    apply new_parameter_inv in H2 as (? & ? & ? & ?).
    apply new_parameter_inv in H3 as (? & ? & ? & ?).
    apply new_parameter_inv in H4 as (? & ? & ? & ?).
    apply IH in Hr as (Hs & Hf & ? & ?).
    cbn. repeat split; try congruence.
    repeat constructor; auto.
Qed.

Lemma lstm_new_weights_ok k : forall li h s,
  0 <= li -> 0 <= h -> exists ws s1, lstm_new_weights k li h s = (Return ws, s1).
Proof.
  induction k as [|k IH]; intros li h s Hli Hh; cbn; [unfold ret; eauto|].
  assert (N2 : forall a b, 0 <= a -> 0 <= b -> nonneg_shape [a; b] = true).
  { intros a b Ha Hb. cbn. rewrite andb_true_r. apply andb_true_intro; split; lia. }
  assert (N1 : forall a, 0 <= a -> nonneg_shape [a] = true).
  { intros a Ha. cbn. rewrite andb_true_r. lia. }
  destruct (new_parameter_ok h [4 * h; li] s) as (w1 & s2 & H1); [apply N2; lia|].
  destruct (new_parameter_ok h [4 * h; h] s2) as (w2 & s3 & H2); [apply N2; lia|].
  destruct (new_parameter_ok h [4 * h] s3) as (b1 & s4 & H3); [apply N1; lia|].
  destruct (new_parameter_ok h [4 * h] s4) as (b2 & s5 & H4); [apply N1; lia|].
  destruct (IH h h s5 Hh Hh) as (rest & s6 & Hr).
  rewrite (bind_run _ _ _ _ _ H1), (bind_run _ _ _ _ _ H2), (bind_run _ _ _ _ _ H3),
    (bind_run _ _ _ _ _ H4), (bind_run _ _ _ _ _ Hr).
  unfold ret; eauto.
Qed.

Lemma nn_LSTM_inv i h n p s l s1 :
  nn_LSTM i h n p s = (Return l, s1) ->
  input_size l = i /\ hidden_size l = h /\ num_layers l = n /\ lstm_dropout l = p /\
  lstm_training l = true /\
  map shape (lstm_weights l) = lstm_shapes (Z.to_nat n) i h /\
  Forall single (lstm_weights l) /\
  0 < h /\ 0 < n /\ self s1 = self s /\ heap s1 = heap s.
Proof.
  unfold nn_LSTM.
  destruct (negb (prob_ok p)); [discriminate|].
  destruct (Z.leb_spec i 0) as [|Hi]; [discriminate|].
  destruct (Z.leb_spec h 0) as [|Hh]; [discriminate|].
  destruct (Z.leb_spec n 0) as [|Hn]; [discriminate|].
  intros H. apply bind_Return in H as (ws & s2 & Hw & H).
  injection H as <- <-. apply lstm_new_weights_inv in Hw as (? & ? & ? & ?).
  cbn. repeat split; auto.
Qed.

Lemma nn_LSTM_ok i h n p s :
  prob_ok p = true -> 0 < i -> 0 < h -> 0 < n ->
  exists l s1, nn_LSTM i h n p s = (Return l, s1).
Proof.
  intros Hp Hi Hh Hn. unfold nn_LSTM. rewrite Hp. cbn.
  destruct (Z.leb_spec i 0) as [|_]; [lia|].
  destruct (Z.leb_spec h 0) as [|_]; [lia|]. destruct (Z.leb_spec n 0) as [|_]; [lia|].
  destruct (lstm_new_weights_ok (Z.to_nat n) i h s) as (ws & s2 & Hw); [lia..|].
  rewrite (bind_run _ _ _ _ _ Hw). unfold ret; eauto.
Qed.

(** *** Construction *)

Lemma last_cons_cons {A} (a d : A) l : List.last (a :: l) d = List.last l a.
Proof.
  revert a d. induction l as [|b l IH]; intros a d; [reflexivity|].
  change (List.last (a :: b :: l) d) with (List.last (b :: l) d). now rewrite !IH.
Qed.

Lemma init_fc_inv fc : forall w s l0 w' s1,
  assoc_get "fc" (dict (self s)) = Some (VList l0) ->
  init_fc fc w s = (Return w', s1) ->
  exists ls,
    w' = List.last fc w /\ chained w fc ls /\
    self s1 = mkObj (training (self s)) (modules (self s))
                    (assoc_set "fc" (VList (l0 ++ map LinearLayer ls)) (dict (self s))) /\
    heap s1 = heap s.
Proof.
  induction fc as [|n fc IH]; intros w s l0 w' s1 Hfc H; cbn in H.
  - injection H as <- <-. exists []. cbn. rewrite app_nil_r, (assoc_set_id _ _ _ Hfc).
    destruct (self s); auto.
  - apply bind_Return in H as (l & s2 & Hl & H).
    apply nn_Linear_inv in Hl as (Hw & Hs2 & Hh2).
    apply bind_Return in H as ([] & s3 & Ha & H).
    unfold list_append, bind, getattr, lookup_attr in Ha.
    rewrite Hs2, Hfc in Ha. injection Ha as <-.
    eapply IH in H as (ls & -> & Hch & Hs1 & Hh1).
    2:{ cbn. apply assoc_get_set_eq. }
    exists (l :: ls). cbn in *.
    rewrite assoc_set_set, <- app_assoc in Hs1.
    rewrite Hs2 in Hs1. split; [|split; [|split]]; auto; try congruence.
    symmetry. apply (last_cons_cons n w fc).
Qed.

Lemma init_fc_ok fc : forall w s l0,
  assoc_get "fc" (dict (self s)) = Some (VList l0) ->
  0 <= w -> Forall (fun n => 0 <= n) fc ->
  exists w' s1, init_fc fc w s = (Return w', s1).
Proof.
  induction fc as [|n fc IH]; intros w s l0 Hfc Hw Hpos; cbn; [unfold ret; eauto|].
  inversion Hpos as [|? ? Hn Hrest]; subst.
  destruct (nn_Linear_ok w n s Hw Hn) as (l & s2 & Hl).
  rewrite (bind_run _ _ _ _ _ Hl).
  apply nn_Linear_inv in Hl as (_ & Hs2 & _).
  unfold list_append at 1, getattr, lookup_attr, bind at 1 2. rewrite Hs2, Hfc.
  eapply IH; eauto. cbn. apply assoc_get_set_eq.
Qed.

Lemma param_float_single t : single t -> param_float t = t.
Proof. unfold single, param_float, Tensor_float. intros ->. reflexivity. Qed.

Lemma map_param_float ws : Forall single ws -> map param_float ws = ws.
Proof.
  induction 1 as [|t ws Ht _ IH]; cbn; [reflexivity|].
  now rewrite IH, param_float_single.
Qed.

Lemma Module_float_LSTM l :
  Forall single (lstm_weights l) -> Module_float (LSTMLayer l) = LSTMLayer l.
Proof. intros H. destruct l; cbn in *. now rewrite map_param_float. Qed.

Lemma Module_float_Linear i o l : wired i o l -> Module_float (LinearLayer l) = LinearLayer l.
Proof.
  intros (_ & _ & _ & _ & Hw & Hb). destruct l; cbn in *.
  now rewrite !param_float_single.
Qed.

Theorem init_inv c s s1 :
  __init__ c s = (Return tt, s1) ->
  exists lstm ls out,
    self s1 = built c lstm ls out /\ heap s1 = heap s /\
    lstm_for c lstm /\
    chained (hidden_dim c + non_seq_width (non_seq_dim c)) (fc c) ls /\
    wired (List.last (fc c) (hidden_dim c + non_seq_width (non_seq_dim c))) (output_dim c) out /\
    prob_ok (dropout c) = true /\ 0 < hidden_dim c /\ 0 < n_layers c.
Proof.
  unfold __init__. intros H.
  apply bind_Return in H as ([] & s2 & H2 & H). cbn in H2. injection H2 as <-.
  apply bind_Return in H as ([] & s2 & H2 & H). cbn in H2. injection H2 as <-.
  apply bind_Return in H as ([] & s2 & H2 & H). cbn in H2. injection H2 as <-.
  apply bind_Return in H as (d & s2 & H2 & H).
  unfold nn_Dropout in H2. destruct (prob_ok (dropout c)) eqn:Hp; [|discriminate].
  injection H2 as <- <-.
  apply bind_Return in H as ([] & s2 & H2 & H). cbn in H2. injection H2 as <-.
  apply bind_Return in H as ([] & s2 & H2 & H). cbn in H2. injection H2 as <-.
  apply bind_Return in H as ([] & s2 & H2 & H).
  apply bind_Return in H as (lstm & s3 & Hl & H).
  apply nn_LSTM_inv in Hl
    as (Hi & Hh & Hn & Hd & Ht & Hsh & Hsg & Hhpos & Hnpos & Hs3 & Hh3).
  destruct s3 as [o3 h3 g3]; cbn in Hs3, Hh3; subst o3 h3.
  apply bind_Return in H as ([] & s4 & H4 & H).
  apply bind_Return in H as ([] & s5 & H5 & H).
  apply bind_Return in H as (w' & s6 & H6 & H).
  apply bind_Return in H as (out & s7 & H7 & H).
  apply bind_Return in H as ([] & s8 & H8 & H).
  apply nn_Linear_inv in H7 as (Hout & Hs7 & Hh7).
  destruct (out_actv c) as [f|] eqn:Hact;
    cbn in H2; injection H2 as <-;
    cbn in H4; injection H4 as <-;
    cbn in H5; injection H5 as <-;
    (eapply init_fc_inv in H6 as (ls & -> & Hch & Hs6 & Hh6); [|reflexivity]);
    cbn in Hs6, Hh6;
    destruct s6 as [o6 h6 g6]; cbn in Hs6, Hh6; subst o6 h6;
    destruct s7 as [o7 h7 g7]; cbn in Hs7, Hh7; subst o7 h7;
    cbn in H8; injection H8 as <-;
    cbn in H; injection H as <-;
    exists lstm, ls, out; unfold built; rewrite Hact;
    (split;
     [ cbn; rewrite <- (Module_float_LSTM _ Hsg);
       rewrite <- (Module_float_Linear _ _ _ Hout); reflexivity
     | unfold lstm_for; repeat split; auto; apply Hout ]).
Qed.

Lemma prob_ok_0 : prob_ok 0 = true.
Proof. reflexivity. Qed.

(** Construction completes as soon as the layer constructors accept the
    widths they are given. *)
Theorem init_ok c s :
  0 < input_dim c -> 0 <= output_dim c -> 0 < hidden_dim c -> 0 < n_layers c ->
  Forall (fun n => 0 <= n) (fc c) -> prob_ok (dropout c) = true ->
  0 <= hidden_dim c + non_seq_width (non_seq_dim c) ->
  exists s1, __init__ c s = (Return tt, s1).
Proof.
  intros Hi Ho Hh Hn Hfc Hp Hw. unfold __init__.
  destruct (out_actv c) as [f|].
  all: do 3 (erewrite bind_run by (cbn; reflexivity)).
  all: unfold nn_Dropout; rewrite Hp.
  all: do 4 (erewrite bind_run by (cbn; reflexivity)).
  all: assert (Hp' : prob_ok (if n_layers c =? 1 then 0%Q else dropout c) = true)
         by (destruct (n_layers c =? 1); auto using prob_ok_0).
  all: match goal with |- context [bind (nn_LSTM ?i ?h ?n ?p) _ ?s0] =>
         destruct (nn_LSTM_ok i h n p s0 Hp' Hi Hh Hn) as (lstm & s3 & Hl)
       end.
  all: rewrite (bind_run _ _ _ _ _ Hl).
  all: apply nn_LSTM_inv in Hl as (_ & _ & _ & _ & _ & _ & _ & _ & _ & Hs3 & Hh3).
  all: destruct s3 as [o3 h3 g3]; cbn in Hs3, Hh3; subst o3 h3.
  all: do 2 (erewrite bind_run by (cbn; reflexivity)).
  all: match goal with |- context [bind (init_fc ?l ?w) _ ?s0] =>
         destruct (init_fc_ok l w s0 []) as (w' & s6 & H6); auto
       end.
  all: rewrite (bind_run _ _ _ _ _ H6).
  all: eapply init_fc_inv in H6 as (ls & -> & Hch & Hs6 & Hh6); [|reflexivity].
  all: assert (Hlast : 0 <= List.last (fc c) (hidden_dim c + non_seq_width (non_seq_dim c)))
         by (clear - Hfc Hw; revert Hw;
             generalize (hidden_dim c + non_seq_width (non_seq_dim c));
             induction Hfc as [|n l Hn _ IH]; intros w Hw;
             [exact Hw | rewrite last_cons_cons; auto]).
  all: match goal with |- context [bind (nn_Linear ?i ?o) _ ?s0] =>
         destruct (nn_Linear_ok i o s0) as (out & s7 & H7); auto
       end.
  all: rewrite (bind_run _ _ _ _ _ H7).
  all: apply nn_Linear_inv in H7 as (_ & Hs7 & _).
  all: destruct s7 as [o7 h7 g7]; cbn in Hs7; subst o7.
  all: destruct s6 as [o6 h6 g6]; cbn in Hs6; subst o6.
  all: cbn; unfold bind; cbn; eauto.
Qed.

(** *** The hidden-state initialiser *)

Lemma zero_fill n : map (fun _ => zero) (map uninit (seq 0 n)) = repeat zero n.
Proof.
  rewrite map_map. generalize 0%nat.
  induction n as [|n IH]; intros k; cbn; [reflexivity|]. now rewrite IH.
Qed.

Lemma nonneg_shape3 a b c : 0 <= a -> 0 <= b -> 0 <= c -> nonneg_shape [a; b; c] = true.
Proof.
  intros. cbn. rewrite andb_true_r.
  repeat (apply andb_true_intro; split); lia.
Qed.

Lemma Tensor_new_run like sh s :
  nonneg_shape sh = true ->
  Tensor_new like sh s =
  (Return (length (heap s)),
   mkState (self s)
     (heap s ++ [mkTensor sh (dtype like) (map uninit (seq 0 (Z.to_nat (numel sh))))])
     (gen s)).
Proof. unfold Tensor_new, alloc. intros ->. reflexivity. Qed.

Lemma zero__fresh o hp g t :
  zero_ (length hp) (mkState o (hp ++ [t]) g) =
  (Return (length hp),
   mkState o (hp ++ [mkTensor (shape t) (dtype t) (map (fun _ => zero) (data t))]) g).
Proof.
  unfold zero_, bind, load, store, ret. cbn [heap self gen].
  rewrite list_lookup_middle by reflexivity. cbn [heap self gen].
  rewrite insert_app_r_alt by reflexivity.
  now rewrite Nat.sub_diag.
Qed.

Lemma init_hidden_run B s w ws n h :
  parameters (self s) = w :: ws ->
  lookup_attr "n_layers" (self s) = Return (VInt n) ->
  lookup_attr "hidden_dim" (self s) = Return (VInt h) ->
  0 <= n -> 0 <= B -> 0 <= h ->
  init_hidden B s =
  (Return (length (heap s), S (length (heap s))),
   mkState (self s)
     (heap s ++ [zeros (dtype w) [n; B; h]; zeros (dtype w) [n; B; h]]) (gen s)).
Proof.
  intros Hps Hn Hh ? ? ?. destruct s as [o hp g]. cbn [self heap gen] in *.
  assert (Hsh : nonneg_shape [n; B; h] = true) by now apply nonneg_shape3.
  assert (Gn : forall s', self s' = o ->
            (v <- getattr "n_layers" ;; as_int v) s' = (Return n, s')).
  { intros s' E. unfold bind, getattr. now rewrite E, Hn. }
  assert (Gh : forall s', self s' = o ->
            (v <- getattr "hidden_dim" ;; as_int v) s' = (Return h, s')).
  { intros s' E. unfold bind, getattr. now rewrite E, Hh. }
  unfold init_hidden.
  erewrite bind_run by reflexivity. cbn [self]. rewrite Hps.
  erewrite bind_run by reflexivity.
  erewrite bind_run by (apply Gn; reflexivity).
  erewrite bind_run by (apply Gh; reflexivity).
  erewrite bind_run by (apply Tensor_new_run; assumption). cbn [self heap gen].
  erewrite bind_run by apply zero__fresh. cbn [shape dtype data].
  erewrite bind_run by (apply Gn; reflexivity).
  erewrite bind_run by (apply Gh; reflexivity).
  erewrite bind_run by (apply Tensor_new_run; assumption). cbn [self heap gen].
  erewrite bind_run by apply zero__fresh. cbn [ret shape dtype data].
  rewrite zero_fill, <- app_assoc, length_app, Nat.add_1_r. reflexivity.
Qed.

(** *** The recurrent encoder *)

Lemma shape_eqb_refl sh : shape_eqb sh sh = true.
Proof. induction sh as [|d sh IH]; cbn; [reflexivity|]. now rewrite Z.eqb_refl. Qed.

Lemma forallb_single ws :
  Forall single ws -> forallb (DType_eqb Float32) (map dtype ws) = true.
Proof. induction 1 as [|t ws Ht _ IH]; cbn; [reflexivity|]. now rewrite Ht. Qed.

Lemma shape_Tensor_float t : shape (Tensor_float t) = shape t.
Proof. unfold Tensor_float. now destruct (dtype t). Qed.

Lemma single_Tensor_float t : single (Tensor_float t).
Proof. unfold single, Tensor_float. now destruct (dtype t) eqn:E. Qed.

Lemma lookup_fresh2 (hp : list Tensor) a b :
  (hp ++ [a; b]) !! length hp = Some a /\ (hp ++ [a; b]) !! S (length hp) = Some b.
Proof.
  split; [now apply list_lookup_middle|].
  change (hp ++ [a; b]) with (hp ++ [a] ++ [b]). rewrite app_assoc.
  apply list_lookup_middle. rewrite length_app. cbn. lia.
Qed.

Lemma LSTM_forward_batch l x B T I s l1 l2 h0 c0 :
  heap s !! l1 = Some h0 -> heap s !! l2 = Some c0 ->
  shape x = [B; T; I] ->
  length (shape h0) = 3%nat -> length (shape c0) = 3%nat ->
  LSTM_forward l x (l1, l2) s = LSTM_batched l x h0 c0 s.
Proof.
  intros H1 H2 Hx Hh Hc. unfold LSTM_forward.
  erewrite bind_run by (unfold load; cbn [fst]; rewrite H1; reflexivity).
  erewrite bind_run by (unfold load; cbn [snd]; rewrite H2; reflexivity).
  now rewrite Hx, Hh, Hc.
Qed.

Lemma LSTM_forward_run l x B T s l1 l2 h0 c0 :
  heap s !! l1 = Some h0 -> heap s !! l2 = Some c0 ->
  shape x = [B; T; input_size l] ->
  shape h0 = [num_layers l; B; hidden_size l] ->
  shape c0 = [num_layers l; B; hidden_size l] ->
  single x -> single h0 -> single c0 -> Forall single (lstm_weights l) ->
  0 < T ->
  exists out hn cn s',
    LSTM_forward l x (l1, l2) s = (Return (out, (hn, cn)), s') /\
    shape out = [B; T; hidden_size l] /\ single out /\
    self s' = self s /\ heap s' = heap s.
Proof.
  intros H1 H2 Hx Hh Hc Sx Sh Sc Sw HS.
  rewrite (LSTM_forward_batch l x B T (input_size l) s l1 l2 h0 c0 H1 H2 Hx)
    by (rewrite ?Hh, ?Hc; reflexivity).
  unfold LSTM_batched.
  rewrite Hx, Hh, Hc, Z.eqb_refl, shape_eqb_refl. cbn [negb andb].
  rewrite Sx, Sh, Sc. cbn [forallb DType_eqb andb]. rewrite (forallb_single _ Sw).
  cbn [negb]. destruct (Z.leb_spec T 0) as [|_]; [lia|].
  destruct (lstm_training l && negb (Qle_bool (lstm_dropout l) 0) && (1 <? num_layers l)).
  - unfold bind, with_gen, ret. cbn. do 4 eexists. repeat split.
  - unfold bind, ret. do 4 eexists. repeat split.
Qed.

Lemma first_parameter mode c lstm ls out o :
  instance mode c lstm ls out o ->
  Forall single (lstm_weights lstm) -> single (weight out) ->
  exists w ws, parameters o = w :: ws /\ single w.
Proof.
  intros I Hw Ho. rewrite (has_parameters _ _ _ _ _ _ I).
  destruct Hw as [|w ws Hw _]; cbn; eauto.
Qed.

Lemma encode_run mode c lstm ls out x ns B T d s :
  instance mode c lstm ls out (self s) ->
  input_size lstm = input_dim c -> hidden_size lstm = hidden_dim c ->
  num_layers lstm = n_layers c ->
  Forall single (lstm_weights lstm) -> single (weight out) ->
  0 < hidden_dim c -> 0 < n_layers c ->
  shape x = [B; T; input_dim c] -> 0 <= B -> 0 < T -> aux_ok B d ns ->
  exists dense s' hn cn,
    encode x ns s = (Return dense, s') /\
    shape dense = [B; hidden_dim c + d] /\ single dense /\
    self s' = with_hidden (VTuple hn cn) (self s).
Proof.
  intros I Hi Hh Hn Sw So Hhp Hnp Hx HB HS Ha.
  destruct (first_parameter _ _ _ _ _ _ I Sw So) as (w & ws & Hps & Hw).
  unfold encode.
  erewrite bind_run
    by (unfold Tensor_size0; rewrite shape_Tensor_float, Hx; reflexivity).
  erewrite bind_run by (unfold getattr; rewrite (has_lstm _ _ _ _ _ _ I); reflexivity).
  erewrite bind_run
    by (eapply init_hidden_run;
        [ exact Hps | apply (has_n_layers _ _ _ _ _ _ I)
        | apply (has_hidden_dim _ _ _ _ _ _ I) | lia | lia | lia ]).
  cbn [call_lstm].
  destruct (lookup_fresh2 (heap s) (zeros (dtype w) [n_layers c; B; hidden_dim c])
              (zeros (dtype w) [n_layers c; B; hidden_dim c])) as (L1 & L2).
  edestruct (LSTM_forward_run lstm (Tensor_float x) B T
               (mkState (self s)
                  (heap s ++ [zeros (dtype w) [n_layers c; B; hidden_dim c];
                              zeros (dtype w) [n_layers c; B; hidden_dim c]])
                  (gen s)))
    as (lo & hn & cn & s2 & Hrun & Hlo & Slo & Hs2 & Hh2);
    [ exact L1 | exact L2
    | rewrite shape_Tensor_float, Hx, Hi; reflexivity
    | cbn; now rewrite Hn, Hh | cbn; now rewrite Hn, Hh
    | apply single_Tensor_float | exact Hw | exact Hw | exact Sw | exact HS | ].
  rewrite (bind_run _ _ _ _ _ Hrun). cbn [fst snd].
  cbn [self] in Hs2.
  erewrite bind_run
    by (unfold setattr; rewrite Hs2, (hidden_free _ _ _ _ _ _ I); reflexivity).
  erewrite bind_run
    by (unfold select_last; rewrite Hlo;
        destruct (Z.leb_spec 1 T) as [_|]; [reflexivity | lia]).
  destruct ns as [a|]; unfold aux_ok in Ha.
  - unfold torch_cat1. cbn [shape]. rewrite shape_Tensor_float, Ha.
    destruct B as [|B'|B']; try lia; rewrite ?Z.eqb_refl;
      (do 4 eexists; split; [reflexivity|]);
      cbn [shape dtype]; rewrite Slo, (single_Tensor_float a), Hh;
      repeat split; reflexivity.
  - subst d. do 4 eexists. split; [reflexivity|]. cbn [shape dtype self].
    rewrite Hh, Z.add_0_r. repeat split; assumption.
Qed.

(** *** The dense head *)

Lemma Linear_forward_run l x B s i o :
  wired i o l -> shape x = [B; i] -> single x ->
  exists y, Linear_forward l x s = (Return y, s) /\ shape y = [B; o] /\ single y.
Proof.
  intros (Hi & Ho & _ & _ & Hw & Hb) Hx Sx. unfold Linear_forward.
  rewrite Hx. cbn [rev app]. rewrite Hi, Z.eqb_refl, Sx, Hw, Hb. cbn.
  eexists. split; [reflexivity|]. cbn. now rewrite Ho.
Qed.

Lemma Linear_forward_mismatch l x B w s i o :
  wired i o l -> shape x = [B; w] -> w <> i ->
  Linear_forward l x s = (Raise (RuntimeError (SizeMismatch i w)), s).
Proof.
  intros (Hi & _) Hx Hne. unfold Linear_forward.
  rewrite Hx. cbn [rev app]. rewrite Hi.
  destruct (Z.eqb_spec w i); [contradiction | reflexivity].
Qed.

Lemma Dropout_forward_run p mode x s :
  exists y s', Dropout_forward p mode x s = (Return y, s') /\
    shape y = shape x /\ dtype y = dtype x /\ self s' = self s /\ heap s' = heap s.
Proof.
  unfold Dropout_forward. destruct mode.
  - unfold with_gen. do 2 eexists. repeat split.
  - unfold ret. do 2 eexists. repeat split.
Qed.

Lemma dense_loop_run p mode B : forall ls fc w dense s,
  chained w fc ls ->
  lookup_attr "actv" (self s) = Return (VModule ReLU) ->
  lookup_attr "dropout" (self s) = Return (VModule (Dropout p mode)) ->
  shape dense = [B; w] -> single dense ->
  exists y s',
    dense_loop (map LinearLayer ls) dense s = (Return y, s') /\
    shape y = [B; List.last fc w] /\ single y /\
    self s' = self s /\ heap s' = heap s.
Proof.
  induction ls as [|l ls IH]; intros fc w dense s Hch Ha Hd Hx Sx;
    destruct fc as [|n fc]; cbn in Hch; try contradiction.
  - exists dense, s. cbn. auto.
  - destruct Hch as (Hl & Hch). cbn [map dense_loop call_module].
    destruct (Linear_forward_run l dense B s w n Hl Hx Sx) as (y & Hy & Hys & Sy).
    rewrite (bind_run _ _ _ _ _ Hy).
    erewrite bind_run by (unfold getattr; rewrite Ha; reflexivity).
    cbn [call call_module]. erewrite bind_run by reflexivity.
    erewrite bind_run by (unfold getattr; rewrite Hd; reflexivity).
    cbn [call call_module].
    destruct (Dropout_forward_run p mode (ReLU_forward y) s)
      as (z & s1 & Hz & Hzs & Hzd & Hs1 & Hh1).
    rewrite (bind_run _ _ _ _ _ Hz).
    destruct (IH fc n z s1 Hch) as (r & s2 & Hr & Hrs & Sr & Hs2 & Hh2);
      try (rewrite Hs1; assumption).
    + rewrite Hzs. exact Hys.
    + unfold single. rewrite Hzd. exact Sy.
    + exists r, s2. rewrite last_cons_cons. repeat split; auto; congruence.
Qed.

Lemma lookup_with_hidden name v o :
  name <> "hidden" -> lookup_attr name (with_hidden v o) = lookup_attr name o.
Proof.
  intros Hne. unfold lookup_attr, with_hidden. cbn [dict modules].
  rewrite assoc_get_set_ne by congruence. reflexivity.
Qed.

Lemma instance_with_hidden mode c lstm ls out o v :
  instance mode c lstm ls out o -> instance mode c lstm ls out (with_hidden v o).
Proof.
  intros [].
  constructor; try (rewrite lookup_with_hidden by discriminate; assumption); assumption.
Qed.

(** the head when no terminal activation is configured *)
Lemma head_run mode c lstm ls out dense B w s :
  instance mode c lstm ls out (self s) -> out_actv c = None ->
  chained w (fc c) ls -> wired (List.last (fc c) w) (output_dim c) out ->
  shape dense = [B; w] -> single dense ->
  exists y s', head dense s = (Return y, s') /\
    shape y = [B; output_dim c] /\ single y /\ self s' = self s /\ heap s' = heap s.
Proof.
  intros I Hact Hch Hout Hx Sx. unfold head.
  erewrite bind_run by (unfold getattr; rewrite (has_fc _ _ _ _ _ _ I); reflexivity).
  cbn [iter]. erewrite bind_run by reflexivity.
  destruct (dense_loop_run (dropout c) mode B ls (fc c) w dense s Hch
              (has_actv _ _ _ _ _ _ I) (has_dropout _ _ _ _ _ _ I) Hx Sx)
    as (y & s1 & Hy & Hys & Sy & Hs1 & Hh1).
  rewrite (bind_run _ _ _ _ _ Hy).
  erewrite bind_run
    by (unfold getattr; rewrite Hs1, (has_out _ _ _ _ _ _ I); reflexivity).
  cbn [call call_module].
  destruct (Linear_forward_run out y B s1 _ _ Hout Hys Sy) as (r & Hr & Hrs & Sr).
  rewrite (bind_run _ _ _ _ _ Hr).
  erewrite bind_run
    by (unfold getattr; rewrite Hs1, (has_out_actv _ _ _ _ _ _ I), Hact; reflexivity).
  cbn [truthy]. exists r, s1. repeat split; auto.
Qed.

(** the head when a terminal activation is configured *)
Lemma head_out_actv mode c lstm ls out dense B w s f :
  instance mode c lstm ls out (self s) -> out_actv c = Some f ->
  chained w (fc c) ls -> wired (List.last (fc c) w) (output_dim c) out ->
  shape dense = [B; w] -> single dense ->
  exists s', head dense s = (Raise (AttributeError "out_atcv"), s') /\ self s' = self s.
Proof.
  intros I Hact Hch Hout Hx Sx. unfold head.
  erewrite bind_run by (unfold getattr; rewrite (has_fc _ _ _ _ _ _ I); reflexivity).
  cbn [iter]. erewrite bind_run by reflexivity.
  destruct (dense_loop_run (dropout c) mode B ls (fc c) w dense s Hch
              (has_actv _ _ _ _ _ _ I) (has_dropout _ _ _ _ _ _ I) Hx Sx)
    as (y & s1 & Hy & Hys & Sy & Hs1 & Hh1).
  rewrite (bind_run _ _ _ _ _ Hy).
  erewrite bind_run
    by (unfold getattr; rewrite Hs1, (has_out _ _ _ _ _ _ I); reflexivity).
  cbn [call call_module].
  destruct (Linear_forward_run out y B s1 _ _ Hout Hys Sy) as (r & Hr & Hrs & Sr).
  rewrite (bind_run _ _ _ _ _ Hr).
  erewrite bind_run
    by (unfold getattr; rewrite Hs1, (has_out_actv _ _ _ _ _ _ I), Hact; reflexivity).
  cbn [truthy]. exists s1. split; [|exact Hs1].
  apply bind_fail. unfold getattr. now rewrite Hs1, (no_out_atcv _ _ _ _ _ _ I).
Qed.

(** the head when the first dense layer is given the wrong width *)
Lemma head_mismatch mode c lstm ls out dense B w w0 s n rest :
  instance mode c lstm ls out (self s) -> fc c = n :: rest ->
  chained w0 (fc c) ls -> shape dense = [B; w] -> w <> w0 ->
  exists l ls',
    ls = l :: ls' /\ wired w0 n l /\
    Linear_forward l dense s = (Raise (RuntimeError (SizeMismatch w0 w)), s) /\
    head dense s = (Raise (RuntimeError (SizeMismatch w0 w)), s).
Proof.
  intros I Hfc Hch Hx Hne. rewrite Hfc in Hch.
  destruct ls as [|l ls']; cbn in Hch; [contradiction|]. destruct Hch as (Hl & _).
  exists l, ls'. split; [reflexivity|]. split; [exact Hl|].
  pose proof (Linear_forward_mismatch l dense B w s w0 n Hl Hx Hne) as Hm.
  split; [exact Hm|]. unfold head.
  erewrite bind_run by (unfold getattr; rewrite (has_fc _ _ _ _ _ _ I); reflexivity).
  cbn [iter map]. erewrite bind_run by reflexivity.
  apply bind_fail. cbn [dense_loop call_module]. now apply bind_fail.
Qed.

(** *** Instances *)

Lemma instance_built c lstm ls out :
  instance true c lstm ls out (built c lstm ls out).
Proof. unfold built. destruct (out_actv c) eqn:E; constructor; rewrite ?E; reflexivity. Qed.

Lemma instance_train mode c lstm ls out s :
  self s = built c lstm ls out ->
  instance mode c (LSTM_train mode lstm) ls out (self (snd (train mode s))).
Proof.
  intros E. unfold train, bind, get_self, put_self. cbn [fst snd self]. rewrite E.
  unfold built. destruct (out_actv c) eqn:Ea; constructor; rewrite ?Ea; reflexivity.
Qed.

Lemma prob_ok_iff p : prob_ok p = true <-> (0 <= p)%Q /\ (p <= 1)%Q.
Proof.
  unfold prob_ok. rewrite andb_true_iff, !Qle_bool_iff. reflexivity.
Qed.

Lemma non_seq_width_eq o :
  non_seq_width o = match o with Some d => d | None => 0 end.
Proof.
  destruct o as [d|]; [|reflexivity]. unfold non_seq_width.
  destruct (Z.eqb_spec d 0); congruence.
Qed.

Lemma valid_init c s : valid c -> exists s1, __init__ c s = (Return tt, s1).
Proof.
  intros (Hi & Ho & Hh & Hn & Hfc & Hd & Hp0 & Hp1).
  apply init_ok; try lia.
  - eapply Forall_impl; [exact Hfc|]. cbn. intros; lia.
  - now apply prob_ok_iff.
  - rewrite non_seq_width_eq. destruct (non_seq_dim c); lia.
Qed.

Lemma init_instance c s s1 mode s2 :
  __init__ c s = (Return tt, s1) -> self s2 = self (snd (train mode s1)) ->
  exists lstm ls out,
    instance mode c lstm ls out (self s2) /\
    input_size lstm = input_dim c /\ hidden_size lstm = hidden_dim c /\
    num_layers lstm = n_layers c /\ Forall single (lstm_weights lstm) /\
    lstm_dropout lstm = (if n_layers c =? 1 then 0%Q else dropout c) /\
    chained (hidden_dim c + non_seq_width (non_seq_dim c)) (fc c) ls /\
    wired (List.last (fc c) (hidden_dim c + non_seq_width (non_seq_dim c)))
          (output_dim c) out /\
    0 < hidden_dim c /\ 0 < n_layers c.
Proof.
  intros H E.
  apply init_inv in H
    as (lstm & ls & out & Hs & _ & (Hi & Hh & Hn & Hd & _ & _ & Hw) & Hch & Hout & _ & ? & ?).
  exists (LSTM_train mode lstm), ls, out. rewrite E.
  split; [now apply instance_train|]. cbn. repeat split; auto; apply Hout.
Qed.

Lemma chained_widths ls : forall w fc,
  chained w fc ls ->
  map in_features ls = firstn (length fc) (w :: fc) /\
  map out_features ls = fc /\
  Forall (fun l => shape (weight l) = [out_features l; in_features l]) ls.
Proof.
  induction ls as [|l ls IH]; intros w fc H; destruct fc as [|n fc]; cbn in H;
    try contradiction.
  - cbn. auto.
  - destruct H as ((Hi & Ho & Hw & _) & Hch).
    destruct (IH _ _ Hch) as (Hin & Hout & Hsh). cbn [map length firstn].
    rewrite Hin, Hout, Hi, Ho. repeat split. constructor; [congruence | assumption].
Qed.

(** ** The claims *)

(** C3. Construction wires the widths: the first dense layer reads the hidden
    width plus the auxiliary width (0 when unset), every next dense layer
    reads the width its predecessor writes, in the order of [fc], and the
    output layer maps the last of these widths (the fused width when [fc] is
    empty) to [output_dim]. *)
Theorem init_wires_widths c s s1 :
  __init__ c s = (Return tt, s1) ->
  let w0 := hidden_dim c + match non_seq_dim c with Some d => d | None => 0 end in
  exists ls out,
    lookup_attr "fc" (self s1) = Return (VList (map LinearLayer ls)) /\
    map in_features ls = firstn (length (fc c)) (w0 :: fc c) /\
    map out_features ls = fc c /\
    Forall (fun l => shape (weight l) = [out_features l; in_features l]) ls /\
    lookup_attr "out" (self s1) = Return (VModule (LinearLayer out)) /\
    in_features out = List.last (fc c) w0 /\ out_features out = output_dim c /\
    shape (weight out) = [output_dim c; List.last (fc c) w0].
Proof.
  intros H w0. subst w0. rewrite <- non_seq_width_eq.
  apply init_inv in H as (lstm & ls & out & Hs & _ & _ & Hch & Hout & _).
  pose proof (instance_built c lstm ls out) as I. rewrite <- Hs in I.
  destruct (chained_widths _ _ _ Hch) as (Hin & Ho & Hsh).
  destruct Hout as (Hoi & Hoo & Hos & _).
  exists ls, out. repeat split; auto;
    first [apply (has_fc _ _ _ _ _ _ I) | apply (has_out _ _ _ _ _ _ I)].
Qed.

Lemma init_lstm_dropout_aux c s s1 :
  __init__ c s = (Return tt, s1) ->
  exists l,
    lookup_attr "lstm" (self s1) = Return (VModule (LSTMLayer l)) /\
    lstm_dropout l = (if n_layers c =? 1 then 0%Q else dropout c).
Proof.
  intros H.
  apply init_inv in H as (lstm & ls & out & Hs & _ & (_ & _ & _ & Hd & _) & _).
  pose proof (instance_built c lstm ls out) as I. rewrite <- Hs in I.
  exists lstm. split; [apply (has_lstm _ _ _ _ _ _ I) | exact Hd].
Qed.

(** C6. With one recurrent layer the dropout probability handed to the
    recurrent layer is 0 whatever the constructor was given; with more than
    one layer it is the constructor's value. *)
Theorem init_lstm_dropout c s s1 :
  __init__ c s = (Return tt, s1) ->
  exists l,
    lookup_attr "lstm" (self s1) = Return (VModule (LSTMLayer l)) /\
    (n_layers c = 1 -> lstm_dropout l = 0%Q) /\
    (1 < n_layers c -> lstm_dropout l = dropout c).
Proof.
  intros H. destruct (init_lstm_dropout_aux c s s1 H) as (l & Hl & Hd).
  exists l. split; [exact Hl|]. rewrite Hd. split; intros Hn.
  - now rewrite Hn.
  - destruct (Z.eqb_spec (n_layers c) 1); [lia | reflexivity].
Qed.

(** C4, for a configuration without terminal activation and sequences that
    are not empty. For a valid configuration,
    a batch of non-empty sequences of shape
    (batch_size, seq_length, input_dim), of any batch size, with the auxiliary batch of shape
    (batch_size, non_seq_dim) when [non_seq_dim] is configured and none
    otherwise, construction completes and [forward] returns a tensor of shape
    (batch_size, output_dim), in training and in evaluation mode. *)
Theorem forward_shape c s mode x non_seq B T :
  valid c -> out_actv c = None ->
  shape x = [B; T; input_dim c] -> 0 <= B -> 0 < T ->
  aux_ok B (non_seq_width (non_seq_dim c)) non_seq ->
  exists s1,
    __init__ c s = (Return tt, s1) /\
    forall s2, self s2 = self (snd (train mode s1)) ->
      exists y s3, forward x non_seq s2 = (Return y, s3) /\ shape y = [B; output_dim c].
Proof.
  intros Hv Hact Hx HB HT Ha.
  destruct (valid_init c s Hv) as (s1 & H1). exists s1. split; [exact H1|].
  intros s2 E.
  destruct (init_instance _ _ _ _ _ H1 E)
    as (lstm & ls & out & I & Hi & Hh & Hn & Sw & _ & Hch & Hout & Hhp & Hnp).
  destruct (encode_run mode c lstm ls out x non_seq B T
              (non_seq_width (non_seq_dim c)) s2 I Hi Hh Hn Sw)
    as (dense & s3 & hn & cn & He & Hds & Sd & Hs3); auto; try lia.
  { apply Hout. }
  unfold forward. rewrite (bind_run _ _ _ _ _ He).
  assert (I3 : instance mode c lstm ls out (self s3))
    by (rewrite Hs3; now apply instance_with_hidden).
  destruct (head_run mode c lstm ls out dense B _ s3 I3 Hact Hch Hout Hds Sd)
    as (y & s4 & Hy & Hys & _).
  eauto.
Qed.

(** C7. When [non_seq_dim] is configured and [forward] is called without the
    auxiliary batch, the dense path receives the hidden width only and the
    first dense layer, which expects hidden_dim + non_seq_dim, raises the
    size-mismatch error that [forward] ends with. *)
Theorem forward_without_aux c s mode x B T d n rest :
  valid c -> non_seq_dim c = Some d -> fc c = n :: rest ->
  shape x = [B; T; input_dim c] -> 0 < B -> 0 < T ->
  exists s1,
    __init__ c s = (Return tt, s1) /\
    forall s2, self s2 = self (snd (train mode s1)) ->
      exists dense s3 l ls,
        encode x None s2 = (Return dense, s3) /\
        shape dense = [B; hidden_dim c] /\
        lookup_attr "fc" (self s3) = Return (VList (LinearLayer l :: ls)) /\
        in_features l = hidden_dim c + d /\
        Linear_forward l dense s3 =
          (Raise (RuntimeError (SizeMismatch (hidden_dim c + d) (hidden_dim c))), s3) /\
        forward x None s2 =
          (Raise (RuntimeError (SizeMismatch (hidden_dim c + d) (hidden_dim c))), s3).
Proof.
  intros Hv Hnsd Hfc Hx HB HT.
  destruct (valid_init c s Hv) as (s1 & H1). exists s1. split; [exact H1|].
  intros s2 E.
  destruct (init_instance _ _ _ _ _ H1 E)
    as (lstm & ls & out & I & Hi & Hh & Hn & Sw & _ & Hch & Hout & Hhp & Hnp).
  assert (Hd : 0 < d).
  { destruct Hv as (_ & _ & _ & _ & _ & Hd & _). now rewrite Hnsd in Hd. }
  rewrite non_seq_width_eq, Hnsd in Hch.
  destruct (encode_run mode c lstm ls out x None B T 0 s2 I Hi Hh Hn Sw)
    as (dense & s3 & hn & cn & He & Hds & Sd & Hs3); auto; try lia.
  { apply Hout. }
  { reflexivity. }
  rewrite Z.add_0_r in Hds.
  assert (I3 : instance mode c lstm ls out (self s3))
    by (rewrite Hs3; now apply instance_with_hidden).
  destruct (head_mismatch mode c lstm ls out dense B (hidden_dim c) _ s3 n rest
              I3 Hfc Hch Hds) as (l & ls' & -> & Hl & Hm & Hhead); [lia|].
  exists dense, s3, l, (map LinearLayer ls').
  repeat split; auto.
  - apply (has_fc _ _ _ _ _ _ I3).
  - apply Hl.
  - unfold forward. now rewrite (bind_run _ _ _ _ _ He).
Qed.

(** C1. What the code does where the claim wants the terminal activation
    applied: with [out_actv] configured, every call that reaches the terminal
    step looks up the attribute [out_atcv], which no instance has, and ends in
    [AttributeError] instead of returning the activated output. *)
Theorem forward_out_actv_raises c s mode x non_seq B T f :
  valid c -> out_actv c = Some f ->
  shape x = [B; T; input_dim c] -> 0 < B -> 0 < T ->
  aux_ok B (non_seq_width (non_seq_dim c)) non_seq ->
  exists s1,
    __init__ c s = (Return tt, s1) /\
    forall s2, self s2 = self (snd (train mode s1)) ->
      fst (forward x non_seq s2) = Raise (AttributeError "out_atcv").
Proof.
  intros Hv Hact Hx HB HT Ha.
  destruct (valid_init c s Hv) as (s1 & H1). exists s1. split; [exact H1|].
  intros s2 E.
  destruct (init_instance _ _ _ _ _ H1 E)
    as (lstm & ls & out & I & Hi & Hh & Hn & Sw & _ & Hch & Hout & Hhp & Hnp).
  destruct (encode_run mode c lstm ls out x non_seq B T
              (non_seq_width (non_seq_dim c)) s2 I Hi Hh Hn Sw)
    as (dense & s3 & hn & cn & He & Hds & Sd & Hs3); auto; try lia.
  { apply Hout. }
  unfold forward. rewrite (bind_run _ _ _ _ _ He).
  assert (I3 : instance mode c lstm ls out (self s3))
    by (rewrite Hs3; now apply instance_with_hidden).
  destruct (head_out_actv mode c lstm ls out dense B _ s3 f I3 Hact Hch Hout Hds Sd)
    as (s4 & Hy & _).
  now rewrite Hy.
Qed.

(** C2. What the code does where the claim wants every dense layer among the
    parameters: the parameter collection of a constructed instance holds the
    recurrent layer's tensors and the output layer's weight and bias and
    nothing else, 4 * n_layers + 2 tensors whatever [fc] is; the dense layers
    sit in a plain list attribute that the registry does not see. *)
Theorem init_parameters c s s1 :
  __init__ c s = (Return tt, s1) ->
  exists lstm ls out,
    lookup_attr "fc" (self s1) = Return (VList (map LinearLayer ls)) /\
    length ls = length (fc c) /\
    assoc_get "fc" (modules (self s1)) = None /\
    parameters (self s1) = lstm_weights lstm ++ [weight out; bias out] /\
    map shape (parameters (self s1)) =
      lstm_shapes (Z.to_nat (n_layers c)) (input_dim c) (hidden_dim c)
      ++ [[output_dim c;
           List.last (fc c) (hidden_dim c + non_seq_width (non_seq_dim c))];
          [output_dim c]].
Proof.
  intros H.
  apply init_inv in H
    as (lstm & ls & out & Hs & _ & (_ & _ & _ & _ & _ & Hsh & _) & Hch & Hout & _).
  pose proof (instance_built c lstm ls out) as I. rewrite <- Hs in I.
  exists lstm, ls, out. split; [apply (has_fc _ _ _ _ _ _ I)|].
  split.
  { destruct (chained_widths _ _ _ Hch) as (_ & Ho & _).
    now rewrite <- Ho, length_map. }
  split.
  { rewrite Hs. unfold built. destruct (out_actv c); reflexivity. }
  split; [apply (has_parameters _ _ _ _ _ _ I)|].
  rewrite (has_parameters _ _ _ _ _ _ I), map_app, Hsh. cbn [map].
  destruct Hout as (_ & _ & -> & -> & _). reflexivity.
Qed.


(** *** The dense loop against the spec's dense step *)

Lemma keeps_call_module m x : keeps (call_module m x).
Proof.
  intros s. destruct m; cbn; auto.
  - unfold Dropout_forward. now destruct training0.
  - unfold Linear_forward.
    destruct (rev (shape x)); cbn; [reflexivity|].
    repeat match goal with |- context [if ?b then _ else _] => destruct b end;
      reflexivity.
Qed.



(** *** What a call may write, and what it may read *)

Lemma same_but_hidden_refl o : same_but_hidden o o.
Proof. repeat split. Qed.

Lemma same_but_hidden_trans o1 o2 o3 :
  same_but_hidden o1 o2 -> same_but_hidden o2 o3 -> same_but_hidden o1 o3.
Proof.
  intros (T1 & M1 & D1) (T2 & M2 & D2). repeat split; try congruence.
  intros name Hne. now rewrite D2, D1.
Qed.

Lemma same_but_hidden_sym o1 o2 : same_but_hidden o1 o2 -> same_but_hidden o2 o1.
Proof.
  intros (T1 & M1 & D1). repeat split; auto. intros name Hne. now rewrite D1.
Qed.

Lemma same_but_hidden_with v o : same_but_hidden o (with_hidden v o).
Proof.
  repeat split. intros name Hne. cbn. apply assoc_get_set_ne. congruence.
Qed.

Lemma keeps_frames {A} (m : M A) : keeps m -> frames m.
Proof. intros K s. rewrite K. apply same_but_hidden_refl. Qed.

Lemma keeps_bind {A B} (m : M A) (f : A -> M B) :
  keeps m -> (forall a, keeps (f a)) -> keeps (bind m f).
Proof.
  intros Km Kf s. unfold bind. specialize (Km s).
  destruct (m s) as [[a|e] s1]; cbn [snd] in *; [|exact Km].
  now rewrite Kf.
Qed.

Lemma frames_bind {A B} (m : M A) (f : A -> M B) :
  frames m -> (forall a, frames (f a)) -> frames (bind m f).
Proof.
  intros Fm Ff s. unfold bind. specialize (Fm s).
  destruct (m s) as [[a|e] s1]; cbn [snd] in *; [|exact Fm].
  eapply same_but_hidden_trans; [exact Fm | apply Ff].
Qed.

Lemma blind_bind {A B} (m : M A) (f : A -> M B) :
  blind m -> (forall a, blind (f a)) -> blind (bind m f).
Proof.
  intros Bm Bf s s' Hs. unfold bind. destruct (Bm s s' Hs) as (E & Hs1).
  destruct (m s) as [[a|e] s1], (m s') as [[a'|e'] s1']; cbn [fst snd] in *;
    try discriminate.
  - injection E as ->. now apply Bf.
  - injection E as ->. auto.
Qed.

Lemma keeps_ret {A} (a : A) : keeps (ret a).
Proof. intros s. reflexivity. Qed.
Lemma keeps_raise {A} e : keeps (@raise A e).
Proof. intros s. reflexivity. Qed.
Lemma keeps_with_gen {A} (f : rng -> A * rng) : keeps (with_gen f).
Proof. intros s. reflexivity. Qed.
Lemma keeps_alloc t : keeps (alloc t).
Proof. intros s. reflexivity. Qed.
Lemma keeps_load l : keeps (load l).
Proof. intros s. unfold load. now destruct (heap s !! l). Qed.
Lemma keeps_store l t : keeps (store l t).
Proof. intros s. reflexivity. Qed.
Lemma keeps_getattr name : keeps (getattr name).
Proof. intros s. reflexivity. Qed.
Lemma keeps_self_parameters : keeps self_parameters.
Proof. intros s. reflexivity. Qed.

Lemma blind_ret {A} (a : A) : blind (ret a).
Proof. intros s s' Hs. auto. Qed.
Lemma blind_raise {A} e : blind (@raise A e).
Proof. intros s s' Hs. auto. Qed.
Lemma blind_with_gen {A} (f : rng -> A * rng) : blind (with_gen f).
Proof.
  intros s s' (Ho & Hh & Hg). unfold with_gen. cbn. rewrite Hg. repeat split; auto.
  all: apply Ho.
Qed.
Lemma blind_alloc t : blind (alloc t).
Proof.
  intros s s' (Ho & Hh & Hg). unfold alloc. cbn. rewrite Hh. repeat split; auto.
  all: apply Ho.
Qed.
Lemma blind_load l : blind (load l).
Proof.
  intros s s' (Ho & Hh & Hg). unfold load. rewrite Hh.
  destruct (heap s !! l); cbn; repeat split; auto; apply Ho.
Qed.
Lemma blind_store l t : blind (store l t).
Proof.
  intros s s' (Ho & Hh & Hg). unfold store. cbn. rewrite Hh. repeat split; auto.
  all: apply Ho.
Qed.

Lemma blind_getattr name : name <> "hidden" -> blind (getattr name).
Proof.
  intros Hne s s' Hs. split; [|exact Hs]. destruct Hs as ((_ & Hm & Hd) & _).
  unfold getattr, lookup_attr. cbn [fst]. now rewrite Hd, Hm.
Qed.

Lemma blind_self_parameters : blind self_parameters.
Proof.
  intros s s' Hs. split; [|exact Hs]. destruct Hs as ((_ & Hm & _) & _).
  unfold self_parameters, parameters. cbn [fst]. now rewrite Hm.
Qed.

Lemma frames_set_hidden a b : frames (setattr "hidden" (VTuple a b)).
Proof.
  intros s. unfold setattr.
  destruct (assoc_get "hidden" (modules (self s))); cbn [snd self].
  - apply same_but_hidden_refl.
  - apply (same_but_hidden_with (VTuple a b)).
Qed.

Lemma blind_set_hidden a b : blind (setattr "hidden" (VTuple a b)).
Proof.
  intros s s' ((Ht & Hm & Hd) & Hh & Hg). unfold setattr. rewrite Hm.
  destruct (assoc_get "hidden" (modules (self s))); cbn [fst snd].
  - repeat split; auto.
  - split; [reflexivity|]. repeat split; cbn; auto.
    intros name Hne. rewrite !assoc_get_set_ne by congruence. auto.
Qed.

Ltac keeps_tac :=
  repeat first
    [ apply keeps_ret | apply keeps_raise | apply keeps_with_gen | apply keeps_alloc
    | apply keeps_load | apply keeps_store | apply keeps_getattr
    | apply keeps_self_parameters
    | match goal with
      | |- keeps (bind _ _) => apply keeps_bind; [|intros]
      | |- keeps (match ?x with _ => _ end) => destruct x
      | |- keeps (let _ := _ in _) => cbv zeta
      end ].

Ltac blind_tac :=
  repeat first
    [ apply blind_ret | apply blind_raise | apply blind_with_gen | apply blind_alloc
    | apply blind_load | apply blind_store | apply blind_self_parameters
    | apply blind_getattr; discriminate
    | match goal with
      | |- blind (bind _ _) => apply blind_bind; [|intros]
      | |- blind (match ?x with _ => _ end) => destruct x
      | |- blind (let _ := _ in _) => cbv zeta
      end ].

Lemma keeps_init_hidden B : keeps (init_hidden B).
Proof. unfold init_hidden, next, as_int, Tensor_new, zero_. keeps_tac. Qed.

Lemma blind_init_hidden B : blind (init_hidden B).
Proof. unfold init_hidden, next, as_int, Tensor_new, zero_. blind_tac. Qed.

Lemma keeps_LSTM_forward l x hx : keeps (LSTM_forward l x hx).
Proof. unfold LSTM_forward, LSTM_batched. keeps_tac. Qed.

Lemma blind_LSTM_forward l x hx : blind (LSTM_forward l x hx).
Proof. unfold LSTM_forward, LSTM_batched. blind_tac. Qed.

Lemma blind_call_module m x : blind (call_module m x).
Proof. unfold call_module, Dropout_forward, Linear_forward. blind_tac. Qed.

Lemma keeps_call v x : keeps (call v x).
Proof. unfold call. destruct v; try apply keeps_raise. apply keeps_call_module. Qed.

Lemma blind_call v x : blind (call v x).
Proof. unfold call. destruct v; try apply blind_raise. apply blind_call_module. Qed.

Lemma keeps_dense_loop layers : forall dense, keeps (dense_loop layers dense).
Proof.
  induction layers as [|l layers IH]; intros dense; cbn [dense_loop];
    [apply keeps_ret|].
  keeps_tac; auto using keeps_call_module, keeps_call.
Qed.

Lemma blind_dense_loop layers : forall dense, blind (dense_loop layers dense).
Proof.
  induction layers as [|l layers IH]; intros dense; cbn [dense_loop];
    [apply blind_ret|].
  blind_tac; auto using blind_call_module, blind_call.
Qed.

Lemma frames_forward x non_seq : frames (forward x non_seq).
Proof.
  unfold forward, encode, head.
  repeat match goal with
         | |- frames (bind _ _) => apply frames_bind; [|intros]
         | |- frames (setattr "hidden" _) => apply frames_set_hidden
         | |- frames (let _ := _ in _) => cbv zeta
         end.
  all: apply keeps_frames.
  all: unfold Tensor_size0, call_lstm, select_last, torch_cat1, iter;
    keeps_tac;
    auto using keeps_init_hidden, keeps_dense_loop, keeps_call, keeps_LSTM_forward.
Qed.

Lemma blind_forward x non_seq : blind (forward x non_seq).
Proof.
  unfold forward, encode, head.
  repeat match goal with
         | |- blind (bind _ _) => apply blind_bind; [|intros]
         | |- blind (setattr "hidden" _) => apply blind_set_hidden
         | |- blind (let _ := _ in _) => cbv zeta
         end.
  all: unfold Tensor_size0, call_lstm, select_last, torch_cat1, iter;
    blind_tac;
    auto using blind_init_hidden, blind_dense_loop, blind_call, blind_LSTM_forward.
Qed.

Lemma keeps_head dense : keeps (head dense).
Proof. unfold head, iter. keeps_tac; auto using keeps_dense_loop, keeps_call. Qed.

Lemma keeps_select_last t : keeps (select_last t).
Proof. unfold select_last. keeps_tac. Qed.

Lemma keeps_torch_cat1 a b : keeps (torch_cat1 a b).
Proof. unfold torch_cat1. keeps_tac. Qed.

Lemma keeps_run {A} (m : M A) s r s' : keeps m -> m s = (r, s') -> self s' = self s.
Proof. intros K H. specialize (K s). now rewrite H in K. Qed.

(** line 82: a call that returns has run the recurrent layer on the input,
    from the state [init_hidden] made for its batch size, and leaves the
    final state of that run in [hidden] *)
Lemma forward_hidden x non_seq s y s' :
  forward x non_seq s = (Return y, s') ->
  exists lstm B hx s0 r s1,
    lookup_attr "lstm" (self s) = Return lstm /\
    Tensor_size0 (Tensor_float x) s = (Return B, s) /\
    init_hidden B s = (Return hx, s0) /\
    call_lstm lstm (Tensor_float x) hx s0 = (Return r, s1) /\
    lookup_attr "hidden" (self s') = Return (VTuple (fst (snd r)) (snd (snd r))).
Proof.
  unfold forward. intros H.
  apply bind_Return in H as (dense & s4 & He & Hh).
  rewrite (keeps_run _ _ _ _ (keeps_head dense) Hh).
  unfold encode in He. cbv zeta in He.
  apply bind_Return in He as (B & sa & HB & He).
  assert (Es : sa = s).
  { unfold Tensor_size0 in HB.
    destruct (shape (Tensor_float x)); [discriminate | now injection HB]. }
  subst sa.
  apply bind_Return in He as (lstm & sb & Hl & He).
  unfold getattr in Hl. injection Hl as Hl <-.
  apply bind_Return in He as (hx & s0 & Hi & He).
  apply bind_Return in He as (r & s1 & Hr & He).
  apply bind_Return in He as ([] & s2 & Hset & He).
  apply bind_Return in He as (lo & s3 & Hsel & He).
  assert (E4 : self s4 = self s3).
  { destruct non_seq as [a|].
    - apply (keeps_run _ _ _ _ (keeps_torch_cat1 _ _) He).
    - now injection He as _ <-. }
  rewrite E4, (keeps_run _ _ _ _ (keeps_select_last _) Hsel).
  exists lstm, B, hx, s0, r, s1. repeat split; auto.
  unfold setattr in Hset.
  destruct (assoc_get "hidden" (modules (self s1))); [discriminate|].
  injection Hset as <-. unfold lookup_attr. cbn [self dict].
  now rewrite assoc_get_set_eq.
Qed.

(** C9, with the one attribute [forward] does write. Whatever the input and
    the state, [forward] leaves the
    mode flag, the registered sub-modules (hence every parameter) and every
    instance attribute other than [hidden] as they were, and its outcome does
    not depend on the value an earlier call left in [hidden]. The attribute
    [hidden] it does write: a call that returns has run the recurrent layer on
    the input from the state [init_hidden] made for its batch size, and
    leaves the final state of that run in [hidden]. *)
Theorem forward_writes_hidden_only x non_seq s :
  same_but_hidden (self s) (self (snd (forward x non_seq s))) /\
  parameters (self (snd (forward x non_seq s))) = parameters (self s) /\
  (forall v, fst (forward x non_seq (set_hidden v s)) = fst (forward x non_seq s)) /\
  forall y s',
    forward x non_seq s = (Return y, s') ->
    exists lstm B hx s0 r s1,
      lookup_attr "lstm" (self s) = Return lstm /\
      Tensor_size0 (Tensor_float x) s = (Return B, s) /\
      init_hidden B s = (Return hx, s0) /\
      call_lstm lstm (Tensor_float x) hx s0 = (Return r, s1) /\
      lookup_attr "hidden" (self s') = Return (VTuple (fst (snd r)) (snd (snd r))).
Proof.
  pose proof (frames_forward x non_seq s) as F. split; [exact F|]. split; [|split].
  - destruct F as (_ & Hm & _). unfold parameters. now rewrite Hm.
  - intros v. apply blind_forward. repeat split.
    intros name Hne. cbn. apply assoc_get_set_ne. congruence.
  - apply forward_hidden.
Qed.

(** ** Beyond the claims: what the methods do at their edges *)

(** the spec's affine step: the last axis mapped to the layer's output width *)
Definition linear_apply (l : Linear) (x : Tensor) : Tensor :=
  mkTensor (rev (out_features l :: tl (rev (shape x)))) (dtype x)
           (linear_kernel (weight l) (bias l) x).

(** the dense stack without dropout: linear, then the non-linearity *)
Fixpoint dense_eval (ls : list Linear) (dense : Tensor) : Tensor :=
  match ls with
  | [] => dense
  | l :: rest => dense_eval rest (ReLU_forward (linear_apply l dense))
  end.

(** the last-step summary of the recurrent layer run without dropout from a
    zero state *)
Definition summary (l : LSTM) (x : Tensor) (B T : Z) : Tensor :=
  let z := zeros Float32 [num_layers l; B; hidden_size l] in
  mkTensor [B; hidden_size l] Float32
    (select_last_rows (Z.to_nat B) (Z.to_nat T) (Z.to_nat (hidden_size l))
       (fst (lstm_kernel (lstm_weights l) (Tensor_float x) z z))).

Lemma Linear_forward_exact l x B s i o :
  wired i o l -> shape x = [B; i] -> single x ->
  Linear_forward l x s = (Return (linear_apply l x), s) /\
  shape (linear_apply l x) = [B; o] /\ single (linear_apply l x).
Proof.
  intros (Hi & Ho & _ & _ & Hw & Hb) Hx Sx. unfold Linear_forward, linear_apply, single.
  rewrite Hx. cbn [rev app tl shape dtype]. rewrite Hi, Z.eqb_refl, Sx, Hw, Hb, Ho.
  cbn. auto.
Qed.

Lemma dense_loop_eval p B : forall ls fc w dense s,
  chained w fc ls ->
  lookup_attr "actv" (self s) = Return (VModule ReLU) ->
  lookup_attr "dropout" (self s) = Return (VModule (Dropout p false)) ->
  shape dense = [B; w] -> single dense ->
  dense_loop (map LinearLayer ls) dense s = (Return (dense_eval ls dense), s) /\
  shape (dense_eval ls dense) = [B; List.last fc w] /\ single (dense_eval ls dense).
Proof.
  induction ls as [|l ls IH]; intros fc w dense s Hch Ha Hd Hx Sx;
    destruct fc as [|n fc]; cbn in Hch; try contradiction.
  - cbn. auto.
  - destruct Hch as (Hl & Hch). cbn [map dense_loop call_module dense_eval].
    destruct (Linear_forward_exact l dense B s w n Hl Hx Sx) as (Hy & Hys & Sy).
    rewrite (bind_run _ _ _ _ _ Hy).
    erewrite bind_run by (unfold getattr; rewrite Ha; reflexivity).
    cbn [call call_module]. erewrite bind_run by reflexivity.
    erewrite bind_run by (unfold getattr; rewrite Hd; reflexivity).
    cbn [call call_module Dropout_forward]. erewrite bind_run by reflexivity.
    rewrite last_cons_cons. apply IH; auto.
Qed.

Lemma LSTM_forward_full l x B T s l1 l2 h0 c0 :
  heap s !! l1 = Some h0 -> heap s !! l2 = Some c0 ->
  shape x = [B; T; input_size l] ->
  shape h0 = [num_layers l; B; hidden_size l] ->
  shape c0 = [num_layers l; B; hidden_size l] ->
  single x -> single h0 -> single c0 -> Forall single (lstm_weights l) ->
  0 < T ->
  exists out hn cn g',
    LSTM_forward l x (l1, l2) s = (Return (out, (hn, cn)), mkState (self s) (heap s) g') /\
    shape out = [B; T; hidden_size l] /\ single out /\
    shape hn = [num_layers l; B; hidden_size l] /\ single hn /\
    shape cn = [num_layers l; B; hidden_size l] /\ single cn /\
    (lstm_training l = false ->
     g' = gen s /\ data out = fst (lstm_kernel (lstm_weights l) x h0 c0)).
Proof.
  intros H1 H2 Hx Hh Hc Sx Sh Sc Sw HS.
  rewrite (LSTM_forward_batch l x B T (input_size l) s l1 l2 h0 c0 H1 H2 Hx)
    by (rewrite ?Hh, ?Hc; reflexivity).
  unfold LSTM_batched.
  rewrite Hx, Hh, Hc, Z.eqb_refl, shape_eqb_refl. cbn [negb andb].
  rewrite Sx, Sh, Sc. cbn [forallb DType_eqb andb]. rewrite (forallb_single _ Sw).
  cbn [negb]. destruct (Z.leb_spec T 0) as [|_]; [lia|].
  destruct (lstm_training l) eqn:Ht; cbn [andb].
  - destruct (negb (Qle_bool (lstm_dropout l) 0) && (1 <? num_layers l)).
    + unfold bind, with_gen, ret. cbn. do 4 eexists.
      split; [reflexivity|]. repeat split; discriminate.
    + unfold bind, ret. destruct s. do 4 eexists.
      split; [reflexivity|]. repeat split; discriminate.
  - unfold bind, ret. destruct s. do 4 eexists.
    split; [reflexivity|]. repeat split.
Qed.

(** the encoder up to the fusion of the auxiliary input *)
Lemma encode_stage mode c lstm ls out x ns B T s :
  instance mode c lstm ls out (self s) ->
  input_size lstm = input_dim c -> hidden_size lstm = hidden_dim c ->
  num_layers lstm = n_layers c ->
  Forall single (lstm_weights lstm) -> single (weight out) ->
  0 < hidden_dim c -> 0 < n_layers c ->
  shape x = [B; T; input_dim c] -> 0 <= B -> 0 < T ->
  let z := zeros Float32 [n_layers c; B; hidden_dim c] in
  exists sm hn cn g',
    encode x ns s =
      match ns with
      | None => ret sm
      | Some a => torch_cat1 sm (Tensor_float a)
      end (mkState (with_hidden (VTuple hn cn) (self s)) (heap s ++ [z; z]) g') /\
    shape sm = [B; hidden_dim c] /\ single sm /\
    shape hn = [n_layers c; B; hidden_dim c] /\ single hn /\
    shape cn = [n_layers c; B; hidden_dim c] /\ single cn /\
    (lstm_training lstm = false -> g' = gen s /\ sm = summary lstm x B T).
Proof.
  intros I Hi Hh Hn Sw So Hhp Hnp Hx HB HS z.
  destruct (first_parameter _ _ _ _ _ _ I Sw So) as (w & ws & Hps & Hw).
  unfold encode.
  erewrite bind_run
    by (unfold Tensor_size0; rewrite shape_Tensor_float, Hx; reflexivity).
  erewrite bind_run by (unfold getattr; rewrite (has_lstm _ _ _ _ _ _ I); reflexivity).
  erewrite bind_run
    by (eapply init_hidden_run;
        [ exact Hps | apply (has_n_layers _ _ _ _ _ _ I)
        | apply (has_hidden_dim _ _ _ _ _ _ I) | lia | lia | lia ]).
  cbn [call_lstm]. rewrite Hw. fold z.
  destruct (lookup_fresh2 (heap s) z z) as (L1 & L2).
  edestruct (LSTM_forward_full lstm (Tensor_float x) B T
               (mkState (self s) (heap s ++ [z; z]) (gen s)))
    as (lo & hn & cn & g' & Hrun & Hlo & Slo & Hhn & Shn & Hcn & Scn & Hev);
    [ exact L1 | exact L2
    | rewrite shape_Tensor_float, Hx, Hi; reflexivity
    | cbn; now rewrite Hn, Hh | cbn; now rewrite Hn, Hh
    | apply single_Tensor_float | reflexivity | reflexivity | exact Sw | exact HS | ].
  rewrite (bind_run _ _ _ _ _ Hrun). cbn [fst snd self heap gen].
  erewrite bind_run
    by (unfold setattr; cbn [self]; rewrite (hidden_free _ _ _ _ _ _ I); reflexivity).
  erewrite bind_run
    by (unfold select_last; rewrite Hlo;
        destruct (Z.leb_spec 1 T) as [_|]; [reflexivity | lia]).
  cbn [self heap gen].
  eexists _, hn, cn, g'. split; [reflexivity|].
  cbn [shape dtype]. rewrite Hh, Hn in *. repeat split; auto.
  - apply Hev; assumption.
  - destruct (Hev H) as (_ & Hd). unfold summary. rewrite Slo, Hd, Hh, Hn. reflexivity.
Qed.

Lemma torch_cat1_run x y B w1 w2 s :
  shape x = [B; w1] -> shape y = [B; w2] -> single x -> single y ->
  exists t, torch_cat1 x y s = (Return t, s) /\ shape t = [B; w1 + w2] /\ single t.
Proof.
  intros Hx Hy Sx Sy. unfold torch_cat1. rewrite Hx, Hy.
  destruct B as [|B'|B']; rewrite ?Z.eqb_refl;
    (eexists; split; [reflexivity|]); unfold single; cbn [shape dtype];
    rewrite Sx, Sy; auto.
Qed.

Lemma torch_cat1_batches x y B B' w1 w2 s :
  shape x = [B; w1] -> shape y = [B'; w2] -> B <> B' ->
  torch_cat1 x y s = (Raise (RuntimeError CatSizes), s).
Proof.
  intros Hx Hy Hne. unfold torch_cat1. rewrite Hx, Hy.
  destruct (Z.eqb_spec B B') as [|_]; [contradiction|].
  destruct B as [|?|?], B' as [|?|?]; reflexivity.
Qed.

Lemma lookup_hidden_with v o : lookup_attr "hidden" (with_hidden v o) = Return v.
Proof. unfold lookup_attr, with_hidden. cbn [dict]. now rewrite assoc_get_set_eq. Qed.

Lemma lookup_same_but_hidden name o o' :
  same_but_hidden o o' -> name <> "hidden" -> lookup_attr name o' = lookup_attr name o.
Proof. intros (_ & Hm & Hd) Hne. unfold lookup_attr. now rewrite Hd, Hm. Qed.

Lemma instance_same_but_hidden mode c lstm ls out o o' :
  instance mode c lstm ls out o -> same_but_hidden o o' ->
  instance mode c lstm ls out o'.
Proof.
  intros [] S.
  constructor;
    try (rewrite (lookup_same_but_hidden _ _ _ S) by discriminate; assumption).
  - unfold parameters. destruct S as (_ & -> & _). assumption.
  - destruct S as (_ & -> & _). assumption.
Qed.

(** the head in evaluation mode, without terminal activation *)
Lemma head_eval c lstm ls out dense B w s :
  instance false c lstm ls out (self s) -> out_actv c = None ->
  chained w (fc c) ls -> wired (List.last (fc c) w) (output_dim c) out ->
  shape dense = [B; w] -> single dense ->
  head dense s = (Return (linear_apply out (dense_eval ls dense)), s) /\
  shape (linear_apply out (dense_eval ls dense)) = [B; output_dim c].
Proof.
  intros I Hact Hch Hout Hx Sx. unfold head.
  erewrite bind_run by (unfold getattr; rewrite (has_fc _ _ _ _ _ _ I); reflexivity).
  cbn [iter]. erewrite bind_run by reflexivity.
  destruct (dense_loop_eval (dropout c) B ls (fc c) w dense s Hch
              (has_actv _ _ _ _ _ _ I) (has_dropout _ _ _ _ _ _ I) Hx Sx)
    as (Hy & Hys & Sy).
  rewrite (bind_run _ _ _ _ _ Hy).
  erewrite bind_run by (unfold getattr; rewrite (has_out _ _ _ _ _ _ I); reflexivity).
  cbn [call call_module].
  destruct (Linear_forward_exact out _ B s _ _ Hout Hys Sy) as (Hr & Hrs & Sr).
  rewrite (bind_run _ _ _ _ _ Hr).
  erewrite bind_run
    by (unfold getattr; rewrite (has_out_actv _ _ _ _ _ _ I), Hact; reflexivity).
  cbn [truthy]. split; [reflexivity | exact Hrs].
Qed.

(** the head when there is no dense layer and the output layer is given the
    wrong width *)
Lemma head_mismatch_out mode c lstm ls out dense B w w0 s :
  instance mode c lstm ls out (self s) -> fc c = [] ->
  chained w0 (fc c) ls -> wired (List.last (fc c) w0) (output_dim c) out ->
  shape dense = [B; w] -> w <> w0 ->
  ls = [] /\ in_features out = w0 /\
  Linear_forward out dense s = (Raise (RuntimeError (SizeMismatch w0 w)), s) /\
  head dense s = (Raise (RuntimeError (SizeMismatch w0 w)), s).
Proof.
  intros I Hfc Hch Hout Hx Hne. rewrite Hfc in Hch, Hout. cbn in Hout.
  destruct ls as [|l ls']; cbn in Hch; [|contradiction].
  split; [reflexivity|]. split; [apply Hout|].
  pose proof (Linear_forward_mismatch out dense B w s w0 _ Hout Hx Hne) as Hm.
  split; [exact Hm|]. unfold head.
  erewrite bind_run by (unfold getattr; rewrite (has_fc _ _ _ _ _ _ I); reflexivity).
  cbn [iter map]. erewrite bind_run by reflexivity.
  cbn [dense_loop]. erewrite bind_run by reflexivity.
  erewrite bind_run by (unfold getattr; rewrite (has_out _ _ _ _ _ _ I); reflexivity).
  cbn [call call_module]. now apply bind_fail.
Qed.

(** X1. An auxiliary batch handed to a model constructed without
    [non_seq_dim] is concatenated all the same: the first dense layer, which
    expects the hidden width, is given hidden_dim + d and raises the size
    mismatch. *)
Theorem forward_unconfigured_aux c s mode x a B T d n rest :
  valid c -> non_seq_dim c = None -> fc c = n :: rest ->
  shape x = [B; T; input_dim c] -> 0 < B -> 0 < T ->
  shape a = [B; d] -> d <> 0 ->
  exists s1,
    __init__ c s = (Return tt, s1) /\
    forall s2, self s2 = self (snd (train mode s1)) ->
      fst (forward x (Some a) s2) =
      Raise (RuntimeError (SizeMismatch (hidden_dim c) (hidden_dim c + d))).
Proof.
  intros Hv Hnsd Hfc Hx HB HT Ha Hd.
  destruct (valid_init c s Hv) as (s1 & H1). exists s1. split; [exact H1|].
  intros s2 E.
  destruct (init_instance _ _ _ _ _ H1 E)
    as (lstm & ls & out & I & Hi & Hh & Hn & Sw & _ & Hch & Hout & Hhp & Hnp).
  rewrite Hnsd in Hch. cbn [non_seq_width] in Hch. rewrite Z.add_0_r in Hch.
  destruct (encode_run mode c lstm ls out x (Some a) B T d s2 I Hi Hh Hn Sw)
    as (dense & s3 & hn & cn & He & Hds & Sd & Hs3); auto; try lia.
  { apply Hout. }
  assert (I3 : instance mode c lstm ls out (self s3))
    by (rewrite Hs3; now apply instance_with_hidden).
  destruct (head_mismatch mode c lstm ls out dense B (hidden_dim c + d) (hidden_dim c)
              s3 n rest I3 Hfc Hch Hds) as (l & ls' & _ & _ & _ & Hhead); [lia|].
  unfold forward. now rewrite (bind_run _ _ _ _ _ He), Hhead.
Qed.

(** X2. With an empty [fc], a configured [non_seq_dim] and no auxiliary batch,
    there is no dense layer to fail: the loop is skipped and it is the output
    layer, built for hidden_dim + non_seq_dim, that raises the size
    mismatch. *)
Theorem forward_without_aux_no_dense c s mode x B T d :
  valid c -> non_seq_dim c = Some d -> fc c = [] ->
  shape x = [B; T; input_dim c] -> 0 < B -> 0 < T ->
  exists s1,
    __init__ c s = (Return tt, s1) /\
    forall s2, self s2 = self (snd (train mode s1)) ->
      exists dense s3 out,
        encode x None s2 = (Return dense, s3) /\
        lookup_attr "fc" (self s3) = Return (VList []) /\
        lookup_attr "out" (self s3) = Return (VModule (LinearLayer out)) /\
        in_features out = hidden_dim c + d /\
        Linear_forward out dense s3 =
          (Raise (RuntimeError (SizeMismatch (hidden_dim c + d) (hidden_dim c))), s3) /\
        forward x None s2 =
          (Raise (RuntimeError (SizeMismatch (hidden_dim c + d) (hidden_dim c))), s3).
Proof.
  intros Hv Hnsd Hfc Hx HB HT.
  destruct (valid_init c s Hv) as (s1 & H1). exists s1. split; [exact H1|].
  intros s2 E.
  destruct (init_instance _ _ _ _ _ H1 E)
    as (lstm & ls & out & I & Hi & Hh & Hn & Sw & _ & Hch & Hout & Hhp & Hnp).
  assert (Hd : 0 < d).
  { destruct Hv as (_ & _ & _ & _ & _ & Hd & _). now rewrite Hnsd in Hd. }
  rewrite non_seq_width_eq, Hnsd in Hch, Hout.
  destruct (encode_run mode c lstm ls out x None B T 0 s2 I Hi Hh Hn Sw)
    as (dense & s3 & hn & cn & He & Hds & Sd & Hs3); auto; try lia.
  { apply Hout. }
  { reflexivity. }
  rewrite Z.add_0_r in Hds.
  assert (I3 : instance mode c lstm ls out (self s3))
    by (rewrite Hs3; now apply instance_with_hidden).
  destruct (head_mismatch_out mode c lstm ls out dense B (hidden_dim c) _ s3
              I3 Hfc Hch Hout Hds) as (-> & Hin & Hm & Hhead); [lia|].
  exists dense, s3, out. repeat split; auto.
  - apply (has_fc _ _ _ _ _ _ I3).
  - apply (has_out _ _ _ _ _ _ I3).
  - unfold forward. now rewrite (bind_run _ _ _ _ _ He).
Qed.

Lemma LSTM_forward_width l x B T I s l1 l2 h0 c0 :
  heap s !! l1 = Some h0 -> heap s !! l2 = Some c0 ->
  length (shape h0) = 3%nat -> length (shape c0) = 3%nat ->
  shape x = [B; T; I] -> I <> input_size l ->
  LSTM_forward l x (l1, l2) s = (Raise (RuntimeError (InputSize (input_size l) I)), s).
Proof.
  intros H1 H2 Hh Hc Hx Hne.
  rewrite (LSTM_forward_batch l x B T I s l1 l2 h0 c0 H1 H2 Hx Hh Hc).
  unfold LSTM_batched.
  rewrite Hx. destruct (Z.eqb_spec I (input_size l)); [contradiction | reflexivity].
Qed.

(** the error of the recurrent layer for an input that is not a batch, when
    the two states are 3-D *)
Definition rank_error (sh : list Z) : PyErr :=
  match sh with
  | [_; _] => RuntimeError HiddenRank
  | _ => ValueError
  end.

Lemma LSTM_forward_rank l x s l1 l2 h0 c0 :
  heap s !! l1 = Some h0 -> heap s !! l2 = Some c0 ->
  length (shape h0) = 3%nat -> length (shape c0) = 3%nat ->
  length (shape x) <> 3%nat ->
  LSTM_forward l x (l1, l2) s = (Raise (rank_error (shape x)), s).
Proof.
  intros H1 H2 Hh Hc Hr. unfold LSTM_forward.
  erewrite bind_run by (unfold load; cbn [fst]; rewrite H1; reflexivity).
  erewrite bind_run by (unfold load; cbn [snd]; rewrite H2; reflexivity).
  destruct (shape x) as [|b [|t [|i [|? ?]]]]; try reflexivity.
  - cbn [length rank_error]. now rewrite Hh.
  - now cbn in Hr.
Qed.

(** the encoder up to the call of the recurrent layer *)
Lemma encode_prefix mode c lstm ls out x ns B rest s (k : Tensor -> M Tensor) :
  instance mode c lstm ls out (self s) ->
  Forall single (lstm_weights lstm) -> single (weight out) ->
  0 < hidden_dim c -> 0 < n_layers c ->
  shape x = B :: rest -> 0 <= B ->
  let z := zeros Float32 [n_layers c; B; hidden_dim c] in
  let s' := mkState (self s) (heap s ++ [z; z]) (gen s) in
  s'.(heap) !! length (heap s) = Some z /\
  s'.(heap) !! S (length (heap s)) = Some z /\
  forall e, LSTM_forward lstm (Tensor_float x) (length (heap s), S (length (heap s))) s'
            = (Raise e, s') ->
            encode x ns s = (Raise e, s').
Proof.
  intros I Sw So Hhp Hnp Hx HB z s'.
  destruct (first_parameter _ _ _ _ _ _ I Sw So) as (w & ws & Hps & Hw).
  destruct (lookup_fresh2 (heap s) z z) as (L1 & L2).
  split; [exact L1|]. split; [exact L2|]. intros e He.
  unfold encode.
  erewrite bind_run
    by (unfold Tensor_size0; rewrite shape_Tensor_float, Hx; reflexivity).
  erewrite bind_run by (unfold getattr; rewrite (has_lstm _ _ _ _ _ _ I); reflexivity).
  erewrite bind_run
    by (eapply init_hidden_run;
        [ exact Hps | apply (has_n_layers _ _ _ _ _ _ I)
        | apply (has_hidden_dim _ _ _ _ _ _ I) | lia | lia | lia ]).
  cbn [call_lstm]. rewrite Hw. fold z. fold s'. now apply bind_fail.
Qed.

(** X3. When the auxiliary batch has another number of rows than the sequence
    batch, the concatenation raises; by then the recurrent layer has run, so
    the failed call leaves its final state in [hidden]. *)
Theorem forward_aux_batch_mismatch c s mode x a B B' T d :
  valid c -> shape x = [B; T; input_dim c] -> 0 < B -> 0 < T ->
  shape a = [B'; d] -> B' <> B ->
  exists s1,
    __init__ c s = (Return tt, s1) /\
    forall s2, self s2 = self (snd (train mode s1)) ->
      exists s3 hn cn,
        forward x (Some a) s2 = (Raise (RuntimeError CatSizes), s3) /\
        lookup_attr "hidden" (self s3) = Return (VTuple hn cn) /\
        shape hn = [n_layers c; B; hidden_dim c] /\
        shape cn = [n_layers c; B; hidden_dim c].
Proof.
  intros Hv Hx HB HT Ha Hne.
  destruct (valid_init c s Hv) as (s1 & H1). exists s1. split; [exact H1|].
  intros s2 E.
  destruct (init_instance _ _ _ _ _ H1 E)
    as (lstm & ls & out & I & Hi & Hh & Hn & Sw & _ & Hch & Hout & Hhp & Hnp).
  destruct (encode_stage mode c lstm ls out x (Some a) B T s2 I Hi Hh Hn Sw)
    as (sm & hn & cn & g' & He & Hsm & _ & Hhn & _ & Hcn & _); auto; try lia.
  { apply Hout. }
  rewrite (torch_cat1_batches sm (Tensor_float a) B B' (hidden_dim c) d) in He;
    [ | exact Hsm | now rewrite shape_Tensor_float | now apply not_eq_sym ].
  eexists _, hn, cn. split; [unfold forward; apply bind_fail; exact He|].
  cbn [self]. split; [apply lookup_hidden_with | auto].
Qed.

(** X4. A batch whose feature width is not [input_dim] is refused by the
    recurrent layer, before [forward] has written anything to the instance. *)
Theorem forward_wrong_width c s mode x non_seq B T I :
  valid c -> shape x = [B; T; I] -> I <> input_dim c -> 0 <= B ->
  exists s1,
    __init__ c s = (Return tt, s1) /\
    forall s2, self s2 = self (snd (train mode s1)) ->
      exists s3,
        forward x non_seq s2 = (Raise (RuntimeError (InputSize (input_dim c) I)), s3) /\
        self s3 = self s2.
Proof.
  intros Hv Hx Hne HB.
  destruct (valid_init c s Hv) as (s1 & H1). exists s1. split; [exact H1|].
  intros s2 E.
  destruct (init_instance _ _ _ _ _ H1 E)
    as (lstm & ls & out & I0 & Hi & Hh & Hn & Sw & _ & Hch & Hout & Hhp & Hnp).
  destruct (encode_prefix mode c lstm ls out x non_seq B [T; I] s2 (fun t => ret t) I0 Sw)
    as (L1 & L2 & K); auto.
  { apply Hout. }
  eexists. split; [|shelve].
  unfold forward. apply bind_fail. apply K. rewrite <- Hi.
  apply (LSTM_forward_width lstm (Tensor_float x) B T I _ _ _ _ _ L1 L2);
    [reflexivity | reflexivity | rewrite shape_Tensor_float; exact Hx | congruence].
  Unshelve. reflexivity.
Qed.

(** X5. A tensor that is not 3-dimensional is refused as well, the instance
    untouched: without any axis, [x.size(0)] raises [IndexError]; with two
    axes the recurrent layer takes it for a single sequence and raises a
    [RuntimeError], since the two states [init_hidden] made are 3-D; with one
    axis, or four or more, the recurrent layer raises [ValueError]. *)
Theorem forward_wrong_rank c s mode x non_seq :
  valid c -> length (shape x) <> 3%nat -> 0 <= hd 0 (shape x) ->
  exists s1,
    __init__ c s = (Return tt, s1) /\
    forall s2, self s2 = self (snd (train mode s1)) ->
      exists s3,
        forward x non_seq s2 =
          (Raise (match shape x with
                  | [] => IndexError
                  | [_; _] => RuntimeError HiddenRank
                  | _ => ValueError
                  end), s3) /\
        self s3 = self s2.
Proof.
  intros Hv Hr HB.
  destruct (valid_init c s Hv) as (s1 & H1). exists s1. split; [exact H1|].
  intros s2 E.
  destruct (init_instance _ _ _ _ _ H1 E)
    as (lstm & ls & out & I0 & Hi & Hh & Hn & Sw & _ & Hch & Hout & Hhp & Hnp).
  destruct (shape x) as [|B rest] eqn:Hx.
  - exists s2. split; [|reflexivity].
    unfold forward, encode. apply bind_fail. apply bind_fail.
    unfold Tensor_size0. now rewrite shape_Tensor_float, Hx.
  - cbn [hd] in HB.
    destruct (encode_prefix mode c lstm ls out x non_seq B rest s2 (fun t => ret t) I0 Sw)
      as (L1 & L2 & K); auto.
    { apply Hout. }
    pose proof (LSTM_forward_rank lstm (Tensor_float x) _ _ _ _ _ L1 L2
                  eq_refl eq_refl) as R.
    rewrite shape_Tensor_float, Hx in R. apply K in R; [|exact Hr].
    eexists. split; [unfold forward; apply bind_fail; exact R | reflexivity].
Qed.

(** X6. In evaluation mode the forward pass is a function of the parameters
    and the input alone: there is one tensor that every call returns, whatever
    the tensors allocated before, the state of the generator and the value an
    earlier call left in [hidden]; the generator is not advanced, so calling
    again returns the same tensor. *)
Theorem forward_eval_pure c s x non_seq B T :
  valid c -> out_actv c = None ->
  shape x = [B; T; input_dim c] -> 0 < B -> 0 < T ->
  aux_ok B (non_seq_width (non_seq_dim c)) non_seq ->
  exists s1,
    __init__ c s = (Return tt, s1) /\
    exists y,
      shape y = [B; output_dim c] /\
      forall s2, same_but_hidden (self (snd (train false s1))) (self s2) ->
        exists s3,
          forward x non_seq s2 = (Return y, s3) /\
          gen s3 = gen s2 /\
          same_but_hidden (self (snd (train false s1))) (self s3).
Proof.
  intros Hv Hact Hx HB HT Ha.
  destruct (valid_init c s Hv) as (s1 & H1). exists s1. split; [exact H1|].
  destruct (init_instance _ _ _ false _ H1 eq_refl)
    as (lstm & ls & out & I & Hi & Hh & Hn & Sw & _ & Hch & Hout & Hhp & Hnp).
  assert (Ht : lstm_training lstm = false).
  { pose proof H1 as H2.
    apply init_inv in H2 as (l0 & ls0 & out0 & Hs & _).
    pose proof (instance_train false c l0 ls0 out0 s1 Hs) as I'.
    pose proof (has_lstm _ _ _ _ _ _ I) as A. rewrite (has_lstm _ _ _ _ _ _ I') in A.
    injection A as <-. reflexivity. }
  set (w0 := hidden_dim c + non_seq_width (non_seq_dim c)) in *.
  set (sm := summary lstm x B T).
  assert (Hsm : shape sm = [B; hidden_dim c] /\ single sm)
    by (unfold sm, summary; cbn; now rewrite Hh).
  destruct Hsm as (Hsm & Ssm).
  assert (D : exists dense, shape dense = [B; w0] /\ single dense /\
              forall st, match non_seq with
                         | None => ret sm
                         | Some a => torch_cat1 sm (Tensor_float a)
                         end st = (Return dense, st)).
  { destruct non_seq as [a|]; unfold aux_ok in Ha.
    - assert (C : forall st, exists t,
                torch_cat1 sm (Tensor_float a) st = (Return t, st) /\
                shape t = [B; w0] /\ single t).
      { intros st. apply torch_cat1_run; auto.
        - now rewrite shape_Tensor_float.
        - apply single_Tensor_float. }
      destruct (C s) as (t & Ht0 & Hts & St). exists t. repeat split; auto.
      intros st. destruct (C st) as (t' & Ht' & _).
      unfold torch_cat1 in *. rewrite Hsm, shape_Tensor_float, Ha in *.
      destruct B as [|B0|B0]; try lia; rewrite Z.eqb_refl in *;
        injection Ht0 as <-; reflexivity.
    - exists sm. unfold w0. rewrite Ha, Z.add_0_r. repeat split; auto. }
  destruct D as (dense & Hds & Sd & Hfuse).
  exists (linear_apply out (dense_eval ls dense)).
  assert (Hy : forall st, instance false c lstm ls out (self st) ->
            head dense st = (Return (linear_apply out (dense_eval ls dense)), st) /\
            shape (linear_apply out (dense_eval ls dense)) = [B; output_dim c]).
  { intros st Ist. apply (head_eval c lstm ls out dense B w0 st); auto. }
  split; [apply (Hy (snd (train false s1)) I)|].
  intros s2 S2.
  pose proof (instance_same_but_hidden _ _ _ _ _ _ _ I S2) as I2.
  destruct (encode_stage false c lstm ls out x non_seq B T s2 I2 Hi Hh Hn Sw)
    as (sm' & hn & cn & g' & He & _ & _ & _ & _ & _ & _ & Hev); auto; try lia.
  { apply Hout. }
  destruct (Hev Ht) as (-> & ->). fold sm in He. rewrite Hfuse in He.
  eexists. unfold forward. rewrite (bind_run _ _ _ _ _ He).
  assert (I3 : instance false c lstm ls out (with_hidden (VTuple hn cn) (self s2)))
    by now apply instance_with_hidden.
  split; [apply Hy; exact I3|]. split; [reflexivity|]. cbn [self].
  eapply same_but_hidden_trans; [exact S2 | apply same_but_hidden_with].
Qed.

(** X7. A successful call stores the recurrent layer's final state in
    [hidden]: a pair of single-precision tensors of shape
    (n_layers, batch_size, hidden_dim); the only tensors it allocates in place
    are the two zero-filled initial states. *)
Theorem forward_stores_final_state c s mode x non_seq B T :
  valid c -> out_actv c = None ->
  shape x = [B; T; input_dim c] -> 0 < B -> 0 < T ->
  aux_ok B (non_seq_width (non_seq_dim c)) non_seq ->
  exists s1,
    __init__ c s = (Return tt, s1) /\
    forall s2, self s2 = self (snd (train mode s1)) ->
      exists y s3 hn cn,
        forward x non_seq s2 = (Return y, s3) /\
        lookup_attr "hidden" (self s3) = Return (VTuple hn cn) /\
        shape hn = [n_layers c; B; hidden_dim c] /\ single hn /\
        shape cn = [n_layers c; B; hidden_dim c] /\ single cn /\
        heap s3 = heap s2 ++ [zeros Float32 [n_layers c; B; hidden_dim c];
                              zeros Float32 [n_layers c; B; hidden_dim c]].
Proof.
  intros Hv Hact Hx HB HT Ha.
  destruct (valid_init c s Hv) as (s1 & H1). exists s1. split; [exact H1|].
  intros s2 E.
  destruct (init_instance _ _ _ _ _ H1 E)
    as (lstm & ls & out & I & Hi & Hh & Hn & Sw & _ & Hch & Hout & Hhp & Hnp).
  destruct (encode_stage mode c lstm ls out x non_seq B T s2 I Hi Hh Hn Sw)
    as (sm & hn & cn & g' & He & Hsm & Ssm & Hhn & Shn & Hcn & Scn & _);
    auto; try lia.
  { apply Hout. }
  set (st := mkState (with_hidden (VTuple hn cn) (self s2)) _ g') in He.
  assert (D : exists dense,
              encode x non_seq s2 = (Return dense, st) /\
              shape dense = [B; hidden_dim c + non_seq_width (non_seq_dim c)] /\
              single dense).
  { rewrite He. destruct non_seq as [a|]; unfold aux_ok in Ha.
    - apply torch_cat1_run; auto.
      + now rewrite shape_Tensor_float.
      + apply single_Tensor_float.
    - exists sm. rewrite Ha, Z.add_0_r. auto. }
  destruct D as (dense & Hd & Hds & Sd).
  assert (I3 : instance mode c lstm ls out (self st))
    by (subst st; cbn [self]; now apply instance_with_hidden).
  destruct (head_run mode c lstm ls out dense B _ st I3 Hact Hch Hout Hds Sd)
    as (y & s4 & Hy & _ & _ & Hs4 & Hh4).
  exists y, s4, hn, cn. unfold forward. rewrite (bind_run _ _ _ _ _ Hd).
  split; [exact Hy|]. rewrite Hs4, Hh4. subst st. cbn [self heap].
  split; [apply lookup_hidden_with|]. auto 10.
Qed.

(** X8. A negative batch size makes the allocation of the first state tensor
    fail: [init_hidden] raises the library's error and leaves the instance,
    the allocated tensors and the generator exactly as they were. *)
Theorem init_hidden_negative c s s1 mode B :
  __init__ c s = (Return tt, s1) -> B < 0 ->
  forall s2, self s2 = self (snd (train mode s1)) ->
    init_hidden B s2 = (Raise (RuntimeError NegativeDim), s2).
Proof.
  intros H HB s2 E.
  destruct (init_instance _ _ _ _ _ H E)
    as (lstm & ls & out & I & Hi & Hh & Hn & Sw & _ & Hch & Hout & Hhp & Hnp).
  assert (So : single (weight out)) by apply Hout.
  destruct (first_parameter _ _ _ _ _ _ I Sw So) as (w & ws & Hps & Hw).
  unfold init_hidden.
  erewrite bind_run by reflexivity. rewrite Hps.
  erewrite bind_run by reflexivity.
  erewrite bind_run
    by (unfold bind, getattr; rewrite (has_n_layers _ _ _ _ _ _ I); reflexivity).
  erewrite bind_run
    by (unfold bind, getattr; rewrite (has_hidden_dim _ _ _ _ _ _ I); reflexivity).
  apply bind_fail. unfold Tensor_new. cbn [nonneg_shape forallb].
  destruct (Z.leb_spec 0 B) as [|_]; [lia|]. now rewrite andb_false_r.
Qed.

(** X9. A dropout value outside [0, 1] is refused by the dropout module that
    construction builds first, whatever the other arguments are: also with a
    single recurrent layer, whose own dropout would have been set to 0. *)
Theorem init_bad_dropout c s :
  (dropout c < 0)%Q \/ (1 < dropout c)%Q ->
  fst (__init__ c s) = Raise ValueError.
Proof.
  intros Hp.
  assert (Hb : prob_ok (dropout c) = false).
  { destruct (prob_ok (dropout c)) eqn:E; [|reflexivity].
    apply prob_ok_iff in E as (H0 & H1).
    destruct Hp as [Hp|Hp]; [apply Qlt_not_le in Hp | apply Qlt_not_le in Hp];
      contradiction. }
  unfold __init__.
  do 3 (erewrite bind_run by (cbn; reflexivity)).
  unfold nn_Dropout. rewrite Hb. reflexivity.
Qed.

(** construction up to the loop over [fc] *)
Lemma init_prefix c s :
  prob_ok (dropout c) = true -> 0 < input_dim c -> 0 < hidden_dim c ->
  0 < n_layers c ->
  exists s5,
    assoc_get "fc" (dict (self s5)) = Some (VList []) /\
    __init__ c s =
    (prev_out <- init_fc (fc c) (hidden_dim c + non_seq_width (non_seq_dim c)) ;;
     out <- nn_Linear prev_out (output_dim c) ;;
     setattr "out" (VModule (LinearLayer out)) ;;;
     float_) s5.
Proof.
  intros Hp Hi Hh Hn. unfold __init__.
  destruct (out_actv c) as [f|].
  all: do 3 (erewrite bind_run by (cbn; reflexivity)).
  all: unfold nn_Dropout; rewrite Hp.
  all: do 4 (erewrite bind_run by (cbn; reflexivity)).
  all: assert (Hp' : prob_ok (if n_layers c =? 1 then 0%Q else dropout c) = true)
         by (destruct (n_layers c =? 1); auto using prob_ok_0).
  all: match goal with |- context [bind (nn_LSTM ?i ?h ?n ?p) _ ?s0] =>
         destruct (nn_LSTM_ok i h n p s0 Hp' Hi Hh Hn) as (lstm & s3 & Hl)
       end.
  all: rewrite (bind_run _ _ _ _ _ Hl).
  all: apply nn_LSTM_inv in Hl as (_ & _ & _ & _ & _ & _ & _ & _ & _ & Hs3 & Hh3).
  all: destruct s3 as [o3 h3 g3]; cbn in Hs3, Hh3; subst o3 h3.
  all: do 2 (erewrite bind_run by (cbn; reflexivity)).
  all: eexists; split; [|reflexivity]; reflexivity.
Qed.

Lemma init_fc_negative post n : forall pre w s l0,
  assoc_get "fc" (dict (self s)) = Some (VList l0) ->
  0 <= w -> Forall (fun k => 0 <= k) pre -> n < 0 ->
  fst (init_fc (pre ++ n :: post) w s) = Raise (RuntimeError NegativeDim).
Proof.
  induction pre as [|k pre IH]; intros w s l0 Hfc Hw Hpre Hn; cbn [app init_fc].
  - unfold bind, nn_Linear, bind, new_parameter. cbn [nonneg_shape forallb].
    destruct (Z.leb_spec 0 n) as [|_]; [lia|]. reflexivity.
  - inversion Hpre as [|? ? Hk Hrest]; subst.
    destruct (nn_Linear_ok w k s Hw Hk) as (l & s2 & Hl).
    rewrite (bind_run _ _ _ _ _ Hl).
    apply nn_Linear_inv in Hl as (_ & Hs2 & _).
    unfold list_append at 1, getattr, lookup_attr, bind at 1 2. rewrite Hs2, Hfc.
    eapply IH; eauto. cbn. apply assoc_get_set_eq.
Qed.



(** *** What construction refuses *)

(** the widths the dense layers and the output layer are built with, in the
    order of construction: the fused width, the entries of [fc], the output
    width *)
Definition linear_widths (c : Config) : list Z :=
  (hidden_dim c + non_seq_width (non_seq_dim c)) :: fc c ++ [output_dim c].

Lemma nn_LSTM_refuses i h n p s :
  prob_ok p = false \/ i <= 0 \/ h <= 0 \/ n <= 0 ->
  nn_LSTM i h n p s = (Raise ValueError, s).
Proof.
  intros H. unfold nn_LSTM.
  destruct (prob_ok p); cbn [negb]; [|reflexivity].
  destruct (Z.leb_spec i 0) as [|Hi]; [reflexivity|].
  destruct (Z.leb_spec h 0) as [|Hh]; [reflexivity|].
  destruct (Z.leb_spec n 0) as [|Hn]; [reflexivity|].
  destruct H as [H|[H|[H|H]]]; [discriminate | lia..].
Qed.

Lemma init_refuses c s :
  prob_ok (dropout c) = false \/
  input_dim c <= 0 \/ hidden_dim c <= 0 \/ n_layers c <= 0 ->
  fst (__init__ c s) = Raise ValueError.
Proof.
  intros H. unfold __init__.
  destruct (out_actv c) as [f|].
  all: do 3 (erewrite bind_run by (cbn; reflexivity)).
  all: unfold nn_Dropout; destruct (prob_ok (dropout c)) eqn:Hp; [|reflexivity].
  all: do 4 (erewrite bind_run by (cbn; reflexivity)).
  all: erewrite bind_fail; [reflexivity|].
  all: apply nn_LSTM_refuses; right.
  all: destruct H as [H|H]; [discriminate | exact H].
Qed.

Lemma nn_Linear_negative i o s :
  i < 0 \/ o < 0 -> nn_Linear i o s = (Raise (RuntimeError NegativeDim), s).
Proof.
  intros H.
  assert (E : nonneg_shape [o; i] = false).
  { cbn. destruct (Z.leb_spec 0 o), (Z.leb_spec 0 i); cbn; try reflexivity. lia. }
  unfold nn_Linear, bind, new_parameter. now rewrite E.
Qed.

Lemma first_negative l :
  Forall (fun n => 0 <= n) l \/
  exists pre n post, l = pre ++ n :: post /\ Forall (fun k => 0 <= k) pre /\ n < 0.
Proof.
  induction l as [|a l IH]; [left; constructor|].
  destruct (Z.ltb_spec a 0) as [Ha|Ha].
  - right. exists [], a, l. repeat split; [constructor | exact Ha].
  - destruct IH as [IH | (pre & n & post & -> & Hpre & Hn)].
    + left. constructor; assumption.
    + right. exists (a :: pre), n, post. repeat split; [constructor; assumption | exact Hn].
Qed.

Lemma Exists_snoc {A} (P : A -> Prop) l a : Exists P (l ++ [a]) -> Exists P l \/ P a.
Proof.
  induction l as [|b l IH]; cbn; intros H; inversion H as [? ? Hb|? ? Ht]; subst.
  - now right.
  - inversion Ht.
  - left. now constructor.
  - destruct (IH Ht) as [Hl|Ha]; [left; now constructor 2 | now right].
Qed.

Lemma Forall_snoc {A} (P : A -> Prop) l a : Forall P (l ++ [a]) -> Forall P l /\ P a.
Proof.
  induction l as [|b l IH]; cbn; intros H; inversion H as [|? ? Hb Ht]; subst.
  - split; [constructor | assumption].
  - destruct (IH Ht) as (Hl & Ha). split; [constructor|]; assumption.
Qed.

Lemma none_negative l :
  Forall (fun n => 0 <= n) l -> Exists (fun n => n < 0) l -> False.
Proof.
  induction 1 as [|a l Ha _ IH]; intros H; inversion H as [? ? Hn|? ? Ht]; subst;
    [lia | auto].
Qed.

(** the dense layers and the output layer, handed a negative width *)
Lemma init_widths_negative fc o (k : Linear -> M unit) w s l0 :
  assoc_get "fc" (dict (self s)) = Some (VList l0) ->
  Exists (fun n => n < 0) (w :: fc ++ [o]) ->
  fst ((prev_out <- init_fc fc w ;; out <- nn_Linear prev_out o ;; k out) s)
  = Raise (RuntimeError NegativeDim).
Proof.
  intros Hfc Hex.
  destruct (Z.ltb_spec w 0) as [Hw|Hw].
  - destruct fc as [|n rest]; cbn [init_fc].
    + erewrite bind_run by reflexivity.
      erewrite bind_fail; [reflexivity|]. apply nn_Linear_negative. now left.
    + erewrite bind_fail; [reflexivity|]. apply bind_fail.
      apply nn_Linear_negative. now left.
  - inversion Hex as [? ? Hn|? ? Ht]; subst; [lia|].
    destruct (first_negative fc) as [Hall | (pre & n & post & -> & Hpre & Hn)].
    + destruct (init_fc_ok fc w s l0 Hfc Hw Hall) as (w' & s6 & H6).
      rewrite (bind_run _ _ _ _ _ H6).
      erewrite bind_fail; [reflexivity|]. apply nn_Linear_negative. right.
      apply Exists_snoc in Ht as [Ht|Ht]; [|exact Ht].
      destruct (none_negative _ Hall Ht).
    + pose proof (init_fc_negative post n pre w s l0 Hfc Hw Hpre Hn) as F.
      unfold bind at 1.
      destruct (init_fc (pre ++ n :: post) w s) as [[a|e] s6]; cbn [fst] in F;
        [discriminate | simpl; injection F as ->; reflexivity].
Qed.

(** C8, as the code has it. Construction checks no width itself; what it does
    is settled by the library's layer constructors, in the order they are
    called. A dropout outside [0, 1], or an input width, a hidden width or a
    number of layers that is not positive, is refused with [ValueError] by the
    dropout module or the recurrent layer. Otherwise a negative width among
    those the dense and output layers are built with (the fused width, the
    entries of [fc], the output width) makes the allocation raise its
    [RuntimeError]. In every other configuration construction completes, with
    the fused width as the first dense layer's input, also for an auxiliary
    width that is zero or negative and for a dense or output width of 0. *)
Theorem init_checks_nothing c s :
  ((dropout c < 0)%Q \/ (1 < dropout c)%Q \/
   input_dim c <= 0 \/ hidden_dim c <= 0 \/ n_layers c <= 0 ->
   fst (__init__ c s) = Raise ValueError) /\
  ((0 <= dropout c)%Q -> (dropout c <= 1)%Q ->
   0 < input_dim c -> 0 < hidden_dim c -> 0 < n_layers c ->
   (Exists (fun n => n < 0) (linear_widths c) ->
    fst (__init__ c s) = Raise (RuntimeError NegativeDim)) /\
   (Forall (fun n => 0 <= n) (linear_widths c) ->
    exists s1 ls out,
      __init__ c s = (Return tt, s1) /\
      lookup_attr "fc" (self s1) = Return (VList (map LinearLayer ls)) /\
      chained (hidden_dim c + non_seq_width (non_seq_dim c)) (fc c) ls /\
      lookup_attr "out" (self s1) = Return (VModule (LinearLayer out)))).
Proof.
  split; [|intros Hp0 Hp1 Hi Hh Hn; split].
  - intros H. apply init_refuses.
    destruct (prob_ok (dropout c)) eqn:Hp; [right | now left].
    apply prob_ok_iff in Hp as (H0 & H1).
    destruct H as [H|[H|H]]; [| | exact H].
    + apply Qlt_not_le in H. contradiction.
    + apply Qlt_not_le in H. contradiction.
  - intros Hex.
    destruct (init_prefix c s) as (s5 & Hl0 & ->); auto.
    { apply prob_ok_iff. auto. }
    now apply (init_widths_negative (fc c) (output_dim c) _ _ s5 []).
  - unfold linear_widths. intros Hall.
    inversion Hall as [|? ? Hw Ht]; subst. apply Forall_snoc in Ht as (Hfc & Ho).
    destruct (init_ok c s) as (s1 & H1); auto.
    { now apply prob_ok_iff. }
    pose proof H1 as H2.
    apply init_inv in H2 as (lstm & ls & out & Hs & _ & _ & Hch & _).
    pose proof (instance_built c lstm ls out) as I. rewrite <- Hs in I.
    exists s1, ls, out. repeat split; auto.
    + apply (has_fc _ _ _ _ _ _ I).
    + apply (has_out _ _ _ _ _ _ I).
Qed.

(** X12. An auxiliary width of 0 counts as none: construction takes the
    hidden width alone for the first layer, and a call without auxiliary
    batch returns a tensor of shape (batch_size, output_dim). *)
Theorem forward_zero_aux_width c s mode x B T :
  0 < input_dim c -> 0 < output_dim c -> 0 < hidden_dim c -> 0 < n_layers c ->
  Forall (fun n => 0 < n) (fc c) ->
  (0 <= dropout c)%Q -> (dropout c <= 1)%Q ->
  non_seq_dim c = Some 0 -> out_actv c = None ->
  shape x = [B; T; input_dim c] -> 0 < B -> 0 < T ->
  exists s1,
    __init__ c s = (Return tt, s1) /\
    forall s2, self s2 = self (snd (train mode s1)) ->
      exists y s3, forward x None s2 = (Return y, s3) /\ shape y = [B; output_dim c].
Proof.
  intros Hi Ho Hh Hn Hfc Hp0 Hp1 Hnsd Hact Hx HB HT.
  destruct (init_ok c s) as (s1 & H1); try lia.
  { eapply Forall_impl; [exact Hfc|]. cbn. intros; lia. }
  { apply prob_ok_iff. auto. }
  { rewrite Hnsd. cbn. lia. }
  exists s1. split; [exact H1|]. intros s2 E.
  destruct (init_instance _ _ _ _ _ H1 E)
    as (lstm & ls & out & I & Hi' & Hh' & Hn' & Sw & _ & Hch & Hout & Hhp & Hnp).
  rewrite Hnsd in Hch, Hout. cbn [non_seq_width Z.eqb] in Hch, Hout.
  destruct (encode_run mode c lstm ls out x None B T 0 s2 I Hi' Hh' Hn' Sw)
    as (dense & s3 & hn & cn & He & Hds & Sd & Hs3); auto; try lia.
  { apply Hout. }
  { reflexivity. }
  unfold forward. rewrite (bind_run _ _ _ _ _ He).
  assert (I3 : instance mode c lstm ls out (self s3))
    by (rewrite Hs3; now apply instance_with_hidden).
  destruct (head_run mode c lstm ls out dense B _ s3 I3 Hact Hch Hout Hds Sd)
    as (y & s4 & Hy & Hys & _).
  eauto.
Qed.

End Torch.


Arguments mkConfig {elt} fc input_dim output_dim hidden_dim n_layers non_seq_dim
  dropout out_actv.
Arguments mkState {elt rng} self heap gen.
Arguments mkObj {elt} training modules dict.
Arguments self {elt rng} s.
Arguments heap {elt rng} s.
Arguments lookup_attr {elt} name o.
Arguments parameters {elt} o.
Arguments train {elt rng} mode s.
Arguments VTuple {elt} a b.
Arguments VList {elt} l.
Arguments VModule {elt} m.
Arguments LinearLayer {elt} l.
Arguments weight {elt} l.
Arguments bias {elt} l.

(** ** The class run on the trivial numeric side *)

Abbreviation run_init := (__init__ unit unit Blank.rand_uniform Blank.cast).

Abbreviation run_init_hidden := (init_hidden unit tt unit Blank.uninit).

Abbreviation run_encode :=
  (encode unit tt unit Blank.uninit Blank.cast Blank.lstm_kernel Blank.lstm_kernel_drop).

Abbreviation run_forward :=
  (forward unit tt unit Blank.uninit Blank.cast Blank.relu_elt Blank.linear_kernel
     Blank.lstm_kernel Blank.lstm_kernel_drop Blank.dropout_kernel).

(** the interpreter before any instance exists *)
Definition fresh : State unit unit := mkState (mkObj true [] []) [] tt.

(** the configuration of the module's own test (lines 121-131) *)
Definition scenario (out_actv : option (tensor unit -> tensor unit)) : Config unit :=
  mkConfig [128] 100 1 128 1 (Some 5) (1 # 2) out_actv.

(** its inputs (lines 133-136): 32 sequences of 16 steps of 100 features in
    double precision, and 32 auxiliary rows of width 5 *)
Definition inputs : tensor unit := mkTensor [32; 16; 100] Float64 (Blank.fill 51200).
Definition non_seq : tensor unit := mkTensor [32; 5] Float64 (Blank.fill 160).

(** a batch of 32 empty sequences *)
Definition empty_sequences : tensor unit := mkTensor [32; 0; 100] Float64 [].

(** a small configuration: one dense layer of width 3, two input features,
    hidden width 2, two recurrent layers, one auxiliary feature *)
Definition small : Config unit := mkConfig [3] 2 1 2 2 (Some 1) (1 # 4) None.

(** the same widths with a negative auxiliary width; then also without input
    width, and with a negative second dense width *)
Definition negative_aux : Config unit := mkConfig [3] 2 1 4 1 (Some (-3)) (1 # 2) None.
Definition no_input : Config unit := mkConfig [3] 0 1 4 1 (Some (-3)) (1 # 2) None.
Definition negative_second : Config unit :=
  mkConfig [3; -2] 2 1 4 1 (Some (-3)) (1 # 2) None.

(** the instances these configurations construct *)
Definition scenario_model : State unit unit := snd (run_init (scenario None) fresh).
Definition small_model : State unit unit := snd (run_init small fresh).

(** one sequence of one step, with its auxiliary row, for [small] *)
Definition one_step : tensor unit := mkTensor [1; 1; 2] Float32 [tt; tt].
Definition one_aux : tensor unit := mkTensor [1; 1] Float32 [tt].

Ltac valid_tac :=
  unfold valid; cbn; repeat split; try lia; try (unfold Qle; cbn; lia);
  repeat constructor; lia.

Lemma scenario_constructed a :
  run_init (scenario a) fresh = (Return tt, snd (run_init (scenario a) fresh)).
Proof.
  destruct a as [f|].
  - assert (H : fst (run_init (scenario (Some f)) fresh) = Return tt)
      by (vm_compute; reflexivity).
    rewrite <- H. apply surjective_pairing.
  - assert (H : fst (run_init (scenario None) fresh) = Return tt)
      by (vm_compute; reflexivity).
    rewrite <- H. apply surjective_pairing.
Defined.

Lemma small_constructed : run_init small fresh = (Return tt, small_model).
Proof.
  assert (H : fst (run_init small fresh) = Return tt) by (vm_compute; reflexivity).
  rewrite <- H. apply surjective_pairing.
Defined.

Lemma forward_out_actv_raises_scenario :
  exists s1,
    run_init (scenario (Some (fun t => t))) fresh = (Return tt, s1) /\
    forall s2, self s2 = self (snd (train true s1)) ->
      fst (run_forward inputs (Some non_seq) s2) = Raise (AttributeError "out_atcv").
Proof.
  apply (forward_out_actv_raises unit tt unit Blank.uninit Blank.rand_uniform Blank.cast
           Blank.relu_elt Blank.linear_kernel Blank.lstm_kernel Blank.lstm_kernel_drop
           Blank.dropout_kernel (scenario (Some (fun t => t))) fresh true inputs
           (Some non_seq) 32 16 (fun t => t));
    [ valid_tac | reflexivity | reflexivity | lia | lia | reflexivity ].
Defined.

Lemma init_parameters_scenario :
  exists lstm ls out,
    lookup_attr "fc" (self scenario_model) = Return (VList (map LinearLayer ls)) /\
    length ls = 1%nat /\
    assoc_get "fc" (modules unit (self scenario_model)) = None /\
    parameters (self scenario_model) = lstm_weights unit lstm ++ [weight out; bias out] /\
    map shape (parameters (self scenario_model)) =
      [[512; 100]; [512; 128]; [512]; [512]; [1; 128]; [1]].
Proof.
  exact (init_parameters unit unit Blank.rand_uniform Blank.cast (scenario None) fresh
           scenario_model (scenario_constructed None)).
Defined.

(** the dense layer of the scenario is reachable through the attribute [fc]
    only: its weight, of shape (128, 133), is not among the parameters *)
Example dense_weight_not_a_parameter :
  exists l,
    lookup_attr "fc" (self scenario_model) = Return (VList [LinearLayer l]) /\
    shape (weight l) = [128; 133] /\ shape (bias l) = [128] /\
    ~ In (weight l) (parameters (self scenario_model)) /\
    ~ In (bias l) (parameters (self scenario_model)).
Proof.
  destruct (init_inv unit unit Blank.rand_uniform Blank.cast (scenario None) fresh
              scenario_model (scenario_constructed None))
    as (lstm & ls & out & Hs & _ & (_ & _ & _ & _ & _ & Hsh & _) & Hch & Hout & _).
  unfold scenario in Hch, Hout, Hsh. cbn in Hch, Hout, Hsh.
  destruct ls as [|l [|l' ls]]; cbn in Hch; try contradiction;
    [|destruct Hch as (_ & []) ].
  destruct Hch as ((_ & _ & Hw & Hb & _) & _).
  destruct Hout as (_ & _ & How & Hob & _).
  assert (E : map shape (parameters (self scenario_model)) =
              [[512; 100]; [512; 128]; [512]; [512]; [1; 128]; [1]]).
  { rewrite Hs. unfold built, scenario, parameters. cbn.
    rewrite ?app_nil_r, map_app, Hsh. cbn. now rewrite How, Hob. }
  exists l. split; [rewrite Hs; reflexivity|].
  split; [exact Hw|]. split; [exact Hb|].
  split; intros H; apply (in_map shape) in H; rewrite E in H;
    rewrite ?Hw, ?Hb in H; cbn in H;
    repeat (destruct H as [H|H]; [discriminate H|]); exact H.
Qed.

Lemma init_wires_widths_scenario :
  exists ls out,
    lookup_attr "fc" (self scenario_model) = Return (VList (map LinearLayer ls)) /\
    map (in_features unit) ls = [133] /\
    map (out_features unit) ls = [128] /\
    Forall (fun l => shape (weight l) = [out_features unit l; in_features unit l]) ls /\
    lookup_attr "out" (self scenario_model) = Return (VModule (LinearLayer out)) /\
    in_features unit out = 128 /\ out_features unit out = 1 /\
    shape (weight out) = [1; 128].
Proof.
  exact (init_wires_widths unit unit Blank.rand_uniform Blank.cast (scenario None) fresh
           scenario_model (scenario_constructed None)).
Defined.

Lemma forward_shape_scenario :
  exists s1,
    run_init (scenario None) fresh = (Return tt, s1) /\
    forall s2, self s2 = self (snd (train true s1)) ->
      exists y s3,
        run_forward inputs (Some non_seq) s2 = (Return y, s3) /\ shape y = [32; 1].
Proof.
  apply (forward_shape unit tt unit Blank.uninit Blank.rand_uniform Blank.cast
           Blank.relu_elt Blank.linear_kernel Blank.lstm_kernel Blank.lstm_kernel_drop
           Blank.dropout_kernel (scenario None) fresh true inputs (Some non_seq) 32 16);
    [ valid_tac | reflexivity | reflexivity | lia | lia | reflexivity ].
Defined.

Lemma forward_empty_sequences :
  fst (run_forward empty_sequences (Some non_seq) scenario_model)
  = Raise (RuntimeError SeqLen).
Proof. vm_compute. reflexivity. Qed.


Lemma init_lstm_dropout_scenario :
  exists l,
    lookup_attr "lstm" (self scenario_model) = Return (VModule (LSTMLayer unit l)) /\
    lstm_dropout unit l = 0%Q.
Proof.
  destruct (init_lstm_dropout unit unit Blank.rand_uniform Blank.cast (scenario None)
              fresh scenario_model (scenario_constructed None)) as (l & Hl & H1 & _).
  exists l. split; [exact Hl | apply H1; reflexivity].
Defined.

Lemma forward_without_aux_scenario :
  exists s1,
    run_init (scenario None) fresh = (Return tt, s1) /\
    forall s2, self s2 = self (snd (train true s1)) ->
      exists dense s3 l ls,
        run_encode inputs None s2 = (Return dense, s3) /\
        shape dense = [32; 128] /\
        lookup_attr "fc" (self s3) = Return (VList (LinearLayer l :: ls)) /\
        in_features unit l = 133 /\
        Linear_forward unit unit Blank.linear_kernel l dense s3 =
          (Raise (RuntimeError (SizeMismatch 133 128)), s3) /\
        run_forward inputs None s2 = (Raise (RuntimeError (SizeMismatch 133 128)), s3).
Proof.
  apply (forward_without_aux unit tt unit Blank.uninit Blank.rand_uniform Blank.cast
           Blank.relu_elt Blank.linear_kernel Blank.lstm_kernel Blank.lstm_kernel_drop
           Blank.dropout_kernel (scenario None) fresh true inputs 32 16 5 128 []);
    [ valid_tac | reflexivity | reflexivity | reflexivity | lia | lia ].
Defined.

Lemma init_negative_aux :
  non_seq_dim unit negative_aux = Some (-3) /\
  fst (run_init negative_aux fresh) = Return tt.
Proof. split; vm_compute; reflexivity. Qed.

Lemma init_checks_nothing_runs :
  fst (run_init no_input fresh) = Raise ValueError /\
  fst (run_init negative_second fresh) = Raise (RuntimeError NegativeDim) /\
  exists s1 ls out,
    run_init negative_aux fresh = (Return tt, s1) /\
    lookup_attr "fc" (self s1) = Return (VList (map LinearLayer ls)) /\
    chained unit 1 [3] ls /\
    lookup_attr "out" (self s1) = Return (VModule (LinearLayer out)).
Proof.
  split; [|split].
  - apply (proj1 (init_checks_nothing unit unit Blank.rand_uniform Blank.cast
                    no_input fresh)).
    do 2 right. left. cbn. lia.
  - refine (proj1 (proj2 (init_checks_nothing unit unit Blank.rand_uniform Blank.cast
                            negative_second fresh) _ _ _ _ _) _);
      cbn; try lia; try (unfold Qle; cbn; lia).
    unfold linear_widths. cbn.
    do 2 apply Exists_cons_tl. apply Exists_cons_hd. lia.
  - refine (proj2 (proj2 (init_checks_nothing unit unit Blank.rand_uniform Blank.cast
                            negative_aux fresh) _ _ _ _ _) _);
      cbn; try lia; try (unfold Qle; cbn; lia).
    unfold linear_widths. cbn. repeat constructor; lia.
Defined.

Lemma forward_writes_hidden_only_small :
  exists y s',
    run_forward one_step (Some one_aux) small_model = (Return y, s') /\
    exists lstm B hx s0 r s1,
      lookup_attr "lstm" (self small_model) = Return lstm /\
      Tensor_size0 unit unit (Tensor_float unit Blank.cast one_step) small_model
      = (Return B, small_model) /\
      run_init_hidden B small_model = (Return hx, s0) /\
      call_lstm unit unit Blank.lstm_kernel Blank.lstm_kernel_drop lstm
        (Tensor_float unit Blank.cast one_step) hx s0 = (Return r, s1) /\
      lookup_attr "hidden" (self s') = Return (VTuple (fst (snd r)) (snd (snd r))).
Proof.
  assert (H : exists y, fst (run_forward one_step (Some one_aux) small_model) = Return y)
    by (eexists; vm_compute; reflexivity).
  destruct H as (y & H).
  assert (E : run_forward one_step (Some one_aux) small_model
              = (Return y, snd (run_forward one_step (Some one_aux) small_model)))
    by (rewrite <- H; apply surjective_pairing).
  exists y, (snd (run_forward one_step (Some one_aux) small_model)).
  split; [exact E|].
  exact (proj2 (proj2 (proj2
           (forward_writes_hidden_only unit tt unit Blank.uninit Blank.cast Blank.relu_elt
              Blank.linear_kernel Blank.lstm_kernel Blank.lstm_kernel_drop
              Blank.dropout_kernel one_step (Some one_aux) small_model))) y _ E).
Defined.

Lemma forward_sets_hidden :
  lookup_attr "hidden" (self small_model) = Raise (AttributeError "hidden") /\
  exists h c,
    lookup_attr "hidden" (self (snd (run_forward one_step (Some one_aux) small_model)))
    = Return (VTuple h c).
Proof.
  split; [vm_compute; reflexivity|].
  exists (mkTensor [2; 1; 2] Float32 [tt; tt; tt; tt]),
         (mkTensor [2; 1; 2] Float32 [tt; tt; tt; tt]).
  vm_compute. reflexivity.
Qed.


(** ** Runs for the edge behaviour *)

(** [small] without auxiliary width, and without dense layers *)
Definition no_aux : Config unit := mkConfig [3] 2 1 2 2 None (1 # 4) None.
Definition no_dense : Config unit := mkConfig [] 2 1 2 2 (Some 1) (1 # 4) None.

(** [small] with an auxiliary width of 0 *)
Definition zero_aux : Config unit := mkConfig [3] 2 1 2 2 (Some 0) (1 # 4) None.

(** [small] with a dropout of 3/2, with a negative dense width after a good
    one, and with a negative output width *)
Definition bad_dropout : Config unit := mkConfig [3] 2 1 2 1 (Some 1) (3 # 2) None.

(** two auxiliary rows for one sequence; five features where two are
    expected; a matrix and a vector where a batch of sequences is expected *)
Definition two_aux : tensor unit := mkTensor [2; 1] Float32 [tt; tt].
Definition five_features : tensor unit := mkTensor [1; 1; 5] Float32 (Blank.fill 5).
Definition matrix : tensor unit := mkTensor [1; 2] Float32 [tt; tt].
Definition vector : tensor unit := mkTensor [2] Float32 [tt; tt].

Lemma forward_unconfigured_aux_run :
  exists s1,
    run_init no_aux fresh = (Return tt, s1) /\
    forall s2, self s2 = self (snd (train true s1)) ->
      fst (run_forward one_step (Some one_aux) s2) = Raise (RuntimeError (SizeMismatch 2 3)).
Proof.
  apply (forward_unconfigured_aux unit tt unit Blank.uninit Blank.rand_uniform Blank.cast
           Blank.relu_elt Blank.linear_kernel Blank.lstm_kernel Blank.lstm_kernel_drop
           Blank.dropout_kernel no_aux fresh true one_step one_aux 1 1 1 3 []);
    [ valid_tac | reflexivity | reflexivity | reflexivity | lia | lia | reflexivity | lia ].
Defined.

Lemma forward_without_aux_no_dense_run :
  exists s1,
    run_init no_dense fresh = (Return tt, s1) /\
    forall s2, self s2 = self (snd (train true s1)) ->
      exists dense s3 out,
        run_encode one_step None s2 = (Return dense, s3) /\
        lookup_attr "fc" (self s3) = Return (VList []) /\
        lookup_attr "out" (self s3) = Return (VModule (LinearLayer out)) /\
        in_features unit out = 3 /\
        Linear_forward unit unit Blank.linear_kernel out dense s3 =
          (Raise (RuntimeError (SizeMismatch 3 2)), s3) /\
        run_forward one_step None s2 = (Raise (RuntimeError (SizeMismatch 3 2)), s3).
Proof.
  apply (forward_without_aux_no_dense unit tt unit Blank.uninit Blank.rand_uniform
           Blank.cast Blank.relu_elt Blank.linear_kernel Blank.lstm_kernel
           Blank.lstm_kernel_drop Blank.dropout_kernel no_dense fresh true one_step 1 1 1);
    [ valid_tac | reflexivity | reflexivity | reflexivity | lia | lia ].
Defined.

Lemma forward_aux_batch_mismatch_run :
  exists s1,
    run_init small fresh = (Return tt, s1) /\
    forall s2, self s2 = self (snd (train true s1)) ->
      exists s3 hn cn,
        run_forward one_step (Some two_aux) s2 = (Raise (RuntimeError CatSizes), s3) /\
        lookup_attr "hidden" (self s3) = Return (VTuple hn cn) /\
        shape hn = [2; 1; 2] /\ shape cn = [2; 1; 2].
Proof.
  apply (forward_aux_batch_mismatch unit tt unit Blank.uninit Blank.rand_uniform
           Blank.cast Blank.relu_elt Blank.linear_kernel Blank.lstm_kernel
           Blank.lstm_kernel_drop Blank.dropout_kernel small fresh true one_step two_aux
           1 2 1 1);
    [ valid_tac | reflexivity | lia | lia | reflexivity | lia ].
Defined.

Lemma forward_wrong_width_run :
  exists s1,
    run_init small fresh = (Return tt, s1) /\
    forall s2, self s2 = self (snd (train true s1)) ->
      exists s3,
        run_forward five_features (Some one_aux) s2 =
          (Raise (RuntimeError (InputSize 2 5)), s3) /\
        self s3 = self s2.
Proof.
  apply (forward_wrong_width unit tt unit Blank.uninit Blank.rand_uniform
           Blank.cast Blank.relu_elt Blank.linear_kernel Blank.lstm_kernel
           Blank.lstm_kernel_drop Blank.dropout_kernel small fresh true five_features
           (Some one_aux) 1 1 5);
    [ valid_tac | reflexivity | cbn; lia | lia ].
Defined.

Lemma forward_wrong_rank_run :
  (exists s1,
     run_init small fresh = (Return tt, s1) /\
     forall s2, self s2 = self (snd (train true s1)) ->
       exists s3,
         run_forward matrix (Some one_aux) s2 = (Raise (RuntimeError HiddenRank), s3) /\
         self s3 = self s2) /\
  (exists s1,
     run_init small fresh = (Return tt, s1) /\
     forall s2, self s2 = self (snd (train true s1)) ->
       exists s3,
         run_forward vector (Some one_aux) s2 = (Raise ValueError, s3) /\
         self s3 = self s2).
Proof.
  split.
  - apply (forward_wrong_rank unit tt unit Blank.uninit Blank.rand_uniform
             Blank.cast Blank.relu_elt Blank.linear_kernel Blank.lstm_kernel
             Blank.lstm_kernel_drop Blank.dropout_kernel small fresh true matrix
             (Some one_aux));
      [ valid_tac | cbn; lia | cbn; lia ].
  - apply (forward_wrong_rank unit tt unit Blank.uninit Blank.rand_uniform
             Blank.cast Blank.relu_elt Blank.linear_kernel Blank.lstm_kernel
             Blank.lstm_kernel_drop Blank.dropout_kernel small fresh true vector
             (Some one_aux));
      [ valid_tac | cbn; lia | cbn; lia ].
Defined.

Lemma forward_eval_pure_scenario :
  exists s1,
    run_init (scenario None) fresh = (Return tt, s1) /\
    exists y,
      shape y = [32; 1] /\
      forall s2, same_but_hidden unit (self (snd (train false s1))) (self s2) ->
        exists s3,
          run_forward inputs (Some non_seq) s2 = (Return y, s3) /\
          gen unit unit s3 = gen unit unit s2 /\
          same_but_hidden unit (self (snd (train false s1))) (self s3).
Proof.
  apply (forward_eval_pure unit tt unit Blank.uninit Blank.rand_uniform Blank.cast
           Blank.relu_elt Blank.linear_kernel Blank.lstm_kernel Blank.lstm_kernel_drop
           Blank.dropout_kernel (scenario None) fresh inputs (Some non_seq) 32 16);
    [ valid_tac | reflexivity | reflexivity | lia | lia | reflexivity ].
Defined.

Lemma forward_stores_final_state_scenario :
  exists s1,
    run_init (scenario None) fresh = (Return tt, s1) /\
    forall s2, self s2 = self (snd (train true s1)) ->
      exists y s3 hn cn,
        run_forward inputs (Some non_seq) s2 = (Return y, s3) /\
        lookup_attr "hidden" (self s3) = Return (VTuple hn cn) /\
        shape hn = [1; 32; 128] /\ single unit hn /\
        shape cn = [1; 32; 128] /\ single unit cn /\
        heap s3 = heap s2 ++ [zeros unit tt Float32 [1; 32; 128];
                              zeros unit tt Float32 [1; 32; 128]].
Proof.
  apply (forward_stores_final_state unit tt unit Blank.uninit Blank.rand_uniform Blank.cast
           Blank.relu_elt Blank.linear_kernel Blank.lstm_kernel Blank.lstm_kernel_drop
           Blank.dropout_kernel (scenario None) fresh true inputs (Some non_seq) 32 16);
    [ valid_tac | reflexivity | reflexivity | lia | lia | reflexivity ].
Defined.

Lemma init_hidden_negative_small :
  run_init_hidden (-1) (snd (train false small_model)) =
  (Raise (RuntimeError NegativeDim), snd (train false small_model)).
Proof.
  refine (init_hidden_negative unit tt unit Blank.uninit Blank.rand_uniform Blank.cast
            small fresh small_model false (-1) small_constructed _
            (snd (train false small_model)) eq_refl).
  lia.
Defined.

Lemma init_bad_dropout_run : fst (run_init bad_dropout fresh) = Raise ValueError.
Proof.
  apply (init_bad_dropout unit unit Blank.rand_uniform Blank.cast bad_dropout fresh).
  right. unfold Qlt. cbn. lia.
Defined.



Lemma forward_zero_aux_width_run :
  exists s1,
    run_init zero_aux fresh = (Return tt, s1) /\
    forall s2, self s2 = self (snd (train true s1)) ->
      exists y s3, run_forward one_step None s2 = (Return y, s3) /\ shape y = [1; 1].
Proof.
  apply (forward_zero_aux_width unit tt unit Blank.uninit Blank.rand_uniform Blank.cast
           Blank.relu_elt Blank.linear_kernel Blank.lstm_kernel Blank.lstm_kernel_drop
           Blank.dropout_kernel zero_aux fresh true one_step 1 1);
    cbn; try lia; try (unfold Qle; cbn; lia); try reflexivity.
  repeat constructor; lia.
Defined.
